(** * Driver_USB: a shallow embedding of the device-driver simulators

    The Python sources are embedded as Rocq functions with explicit state
    passing.  Every method takes the object it is called on and the
    [World] (standard output, the random generator, the sleep log) and
    returns its Python result together with the updated object and world.
    A Python exception is an explicit [Py.Raise]. *)

From Stdlib Require Import ZArith QArith Lia Ascii String.
From stdpp Require Import base list strings gmap.
Close Scope Q_scope.

(** ** Python primitives used by the sources *)
Module Py.

Inductive exn :=
| IndexError | KeyError | AttributeError | ValueError | ZeroDivisionError.

Inductive result (A : Type) :=
| Return (a : A)
| Raise (e : exn).
Arguments Return {A} a.
Arguments Raise {A} e.

(** [l[i]] for a list of length [n]: indices [0 .. n-1] count from the
    front, [-n .. -1] from the back, anything else is an [IndexError]
    ([None]). *)
Definition norm_index (n : nat) (i : Z) : option nat :=
  if decide (0 ≤ i < Z.of_nat n)%Z then Some (Z.to_nat i)
  else if decide (- Z.of_nat n ≤ i < 0)%Z then Some (Z.to_nat (Z.of_nat n + i))
  else None.

Definition getitem {A} (l : list A) (i : Z) : option A :=
  match norm_index (length l) i with
  | Some n => l !! n
  | None => None
  end.

Definition setitem {A} (l : list A) (i : Z) (x : A) : option (list A) :=
  match norm_index (length l) i with
  | Some n => Some (<[n:=x]> l)
  | None => None
  end.

(** [[x] * n]: a non-positive [n] gives the empty list. *)
Definition list_repeat {A} (x : A) (n : Z) : list A := replicate (Z.to_nat n) x.

(** [s[:n]]: a negative [n] counts from the end of the string. *)
Definition slice_to (s : string) (n : Z) : string :=
  if decide (0 ≤ n)%Z then String.substring 0 (Z.to_nat n) s
  else String.substring 0 (String.length s - Z.to_nat (- n)) s.

Definition len_str (s : string) : Z := Z.of_nat (String.length s).

Definition upper_ascii (c : ascii) : ascii :=
  let n := nat_of_ascii c in
  if decide (97 ≤ n ≤ 122)%nat then ascii_of_nat (n - 32) else c.

(** [s.upper()] on ASCII text. *)
Fixpoint upper (s : string) : string :=
  match s with
  | EmptyString => EmptyString
  | String c s' => String (upper_ascii c) (upper s')
  end.

(** [collections.deque(maxlen=...)]. *)
Record deque (A : Type) := Deque { maxlen : Z; items : list A }.
Arguments Deque {A} maxlen items.
Arguments maxlen {A} d.
Arguments items {A} d.

(** [deque.append]: a full bounded deque discards its leftmost item. *)
Definition deque_append {A} (d : deque A) (x : A) : deque A :=
  if decide (maxlen d = 0)%Z then d
  else if decide (maxlen d ≤ Z.of_nat (length (items d)))%Z
       then Deque (maxlen d) (tail (items d) ++ [x])
       else Deque (maxlen d) (items d ++ [x]).

End Py.
Export Py(result, Return, Raise).

(** ** Standard output *)

(** One constructor for each [print] of the sources, carrying the
    interpolated values. *)
Inductive Msg :=
  (* DeviceDriverSimulator.py *)
  | RAM_not_enough (amount : Z)
  | RAM_allocated (amount used size : Z)
  | RAM_freed (amount used size : Z)
  | SPOOLING_queue_full
  | QUEUE_enqueued (OPERATION name : string)
  | QUEUE_no_pending
  | BLOCKED_busy (name : string)
  | DEVICE_writing (name buffer : string)
  | DEVICE_reading (name buffer : string)
  | ERROR_unknown_operation (operation : string)
  | INTERRUPT_completed (name : string)
  (* InternalMemoryDevice.py and RemovableMemoryDevice.py *)
  | INIT_blocks (name : string) (total_blocks : Z)
  | ERROR_out_of_range (name : string) (block_num : Z)
  | FAILURE_write (name : string) (block_num : Z)
  | FAILURE_read (name : string) (block_num : Z)
  | WRITE_block (name : string) (block_num : Z) (data30 : string)
  | READ_block (name : string) (block_num : Z) (data30 : string)
  | CACHE_HIT (name : string) (block_num : Z) (data30 : string)
  | CACHE_EVICT (name : string) (block_num : Z)
  | REMOVABLE_removed (name : string)
  | REMOVABLE_inserted (name : string)
  | ERROR_not_inserted (name : string)
  (* Driver_USB.py *)
  | INTERRUPT_no_handler (interrupt_type : string)
  | USB_connected (name : string)
  | USB_disconnected (name : string)
  | USBDriver_not_connected (name : string)
  | USBDriver_start (operation_type : string) (data_size_mb : Q)
                    (process_name : string) (name : string)
  | USBDriver_done (name : string) (transfer_time : Q).

(** ** The world outside the objects *)

(** [rng] is the stream of 53-bit integers behind [random.random()],
    [draws] the number of them consumed so far, [slept] the durations (in
    seconds) handed to [time.sleep], [stdout] what was printed. *)
Record World := mkWorld {
  rng : nat -> N;
  draws : nat;
  slept : list Q;
  stdout : list Msg
}.

Definition print (m : Msg) (w : World) : World :=
  mkWorld (rng w) (draws w) (slept w) (stdout w ++ [m]).

(** The [n]-th draw of the generator: a multiple of 2^-53 in [0, 1). *)
Definition draw_at (w : World) (n : nat) : Q :=
  Qmake (Z.of_N (rng w n mod 2 ^ 53)) (2 ^ 53).

(** [random.random()]: the next draw. *)
Definition random (w : World) : Q * World :=
  (draw_at w (draws w), mkWorld (rng w) (S (draws w)) (slept w) (stdout w)).

(** [random.uniform(a, b)] is [a + (b - a) * random()]. *)
Definition uniform (a b : Q) (w : World) : Q * World :=
  let '(r, w) := random w in ((a + (b - a) * r)%Q, w).

(** [time.sleep(secs)] raises [ValueError] on a negative duration. *)
Definition time_sleep (secs : Q) (w : World) : result unit * World :=
  match (secs ?= 0)%Q with
  | Lt => (Raise Py.ValueError, w)
  | _ => (Return (), mkWorld (rng w) (draws w) (slept w ++ [secs]) (stdout w))
  end.

(** [a < b] on the rationals, as a boolean. *)
Definition Qltb (a b : Q) : bool :=
  match (a ?= b)%Q with Lt => true | _ => false end.

(** ** DeviceDriverSimulator.py *)
Module DeviceDriverSimulator.

(** A key event record pushed by the keyboard hook. *)
Record KeyEvent := { key : string; event_type : string; timestamp : Q }.

(** [Device.buffer] is a [str]; [KeyboardDriverSimulator.__init__]
    rebinds it to a bounded deque of key events. *)
Inductive BufferVal :=
| BufStr (s : string)
| BufDeque (events : list KeyEvent).

(** [len(dev.buffer)]. *)
Definition len_buffer (b : BufferVal) : Z :=
  match b with
  | BufStr s => Py.len_str s
  | BufDeque events => Z.of_nat (length events)
  end.

(** The attributes set by [Device.__init__]. *)
Record Device := mkDevice { name : string; busy : bool; buffer : BufferVal }.

(** The objects of [self.devices], as far as the simulator reads or writes
    them.  [RemovableMemoryDevice] and [KeyboardDriverSimulator] subclass
    [Device]; [InternalMemoryDevice] does not: it has a [name] but neither
    [busy] nor [buffer]. *)
Inductive DeviceObj :=
| InternalObj (name : string)
| IsDevice (d : Device).

Definition obj_name (o : DeviceObj) : string :=
  match o with
  | InternalObj n => n
  | IsDevice d => name d
  end.

Record IORequest := mkIORequest {
  device_id : Z;
  operation : string;
  data : string
}.

Module RAMManager.
Record t := mk { size : Z; used : Z }.

Definition __init__ (size : Z) : t := mk size 0.

Definition allocate (self : t) (amount : Z) (w : World) : bool * t * World :=
  if decide (size self < used self + amount)%Z
  then (false, self, print (RAM_not_enough amount) w)
  else let self := mk (size self) (used self + amount) in
       (true, self, print (RAM_allocated amount (used self) (size self)) w).

Definition free (self : t) (amount : Z) (w : World) : t * World :=
  let self := mk (size self) (Z.max 0 (used self - amount)) in
  (self, print (RAM_freed amount (used self) (size self)) w).

(** The invariant of the accountant. *)
Definition ram_ok (self : t) : Prop := (0 ≤ used self ≤ size self)%Z.

(** The calls a client can make on an accountant. *)
Inductive call :=
| Allocate (amount : Z)
| Free (amount : Z).

Definition amount_of (c : call) : Z :=
  match c with Allocate a | Free a => a end.

Definition step (c : call) (st : t * World) : t * World :=
  match c with
  | Allocate amount => let '(_, self, w) := allocate st.1 amount st.2 in (self, w)
  | Free amount => free st.1 amount st.2
  end.

Definition run_calls (cs : list call) (st : t * World) : t * World :=
  foldl (fun st c => step c st) st cs.
End RAMManager.

Record t := mk {
  BUFFER_SIZE : Z;
  IO_QUEUE_SIZE : Z;
  devices : list DeviceObj;
  io_queue : Py.deque IORequest;
  ram : RAMManager.t
}.

Definition set_io_queue (q : Py.deque IORequest) (self : t) : t :=
  mk (BUFFER_SIZE self) (IO_QUEUE_SIZE self) (devices self) q (ram self).
Definition set_ram (r : RAMManager.t) (self : t) : t :=
  mk (BUFFER_SIZE self) (IO_QUEUE_SIZE self) (devices self) (io_queue self) r.
(** [dev] aliases [self.devices[i]]: assigning to an attribute of [dev]
    updates the list element. *)
Definition set_device (i : nat) (d : Device) (self : t) : t :=
  mk (BUFFER_SIZE self) (IO_QUEUE_SIZE self)
     (<[i:=IsDevice d]> (devices self)) (io_queue self) (ram self).

(** [deque(maxlen=queue_size)] raises [ValueError] for a negative
    [queue_size].  The three devices are built with the defaults of their
    classes; [InternalMemoryDevice.__init__] prints its block count
    (2048 // 256). *)
Definition __init__ (ram_size buffer_size queue_size : Z) (w : World)
  : result t * World :=
  let w := print (INIT_blocks "SSD" (2048 `div` 256)) w in
  let devices :=
    [ InternalObj "SSD";
      IsDevice (mkDevice "USB Stick" false (BufStr ""));
      IsDevice (mkDevice "Keyboard" false (BufDeque [])) ] in
  if decide (queue_size < 0)%Z then (Raise Py.ValueError, w)
  else (Return (mk buffer_size queue_size devices (Py.Deque queue_size [])
                   (RAMManager.__init__ ram_size)), w).

Definition enqueue_io (self : t) (device_id : Z) (operation data : string)
    (w : World) : result unit * t * World :=
  if decide (IO_QUEUE_SIZE self ≤ Z.of_nat (length (Py.items (io_queue self))))%Z
  then (Return (), self, print SPOOLING_queue_full w)
  else
    let request := mkIORequest device_id operation data in
    let self := set_io_queue (Py.deque_append (io_queue self) request) self in
    match Py.getitem (devices self) device_id with
    | None => (Raise Py.IndexError, self, w)
    | Some dev =>
        (Return (), self, print (QUEUE_enqueued (Py.upper operation) (obj_name dev)) w)
    end.

(** [dev] is the object [self.devices[i]]; the updated object is returned
    along with the simulator that holds it. *)
Definition _device_driver (self : t) (i : nat) (dev : Device) (req : IORequest)
    (w : World) : Device * t * World :=
  let dev := mkDevice (name dev) true (buffer dev) in
  if decide (operation req = "write") then
    let dev := mkDevice (name dev) (busy dev)
                        (BufStr (Py.slice_to (data req) (BUFFER_SIZE self))) in
    let '(ok, r, w) := RAMManager.allocate (ram self) (len_buffer (buffer dev)) w in
    let self := set_device i dev (set_ram r self) in
    if ok then
      (dev, self,
       print (DEVICE_writing (name dev)
                (Py.slice_to (data req) (BUFFER_SIZE self))) w)
    else (dev, self, w)
  else if decide (operation req = "read") then
    let dev := mkDevice (name dev) (busy dev) (BufStr "Simulated input") in
    let '(ok, r, w) := RAMManager.allocate (ram self) (len_buffer (buffer dev)) w in
    let self := set_device i dev (set_ram r self) in
    if ok then (dev, self, print (DEVICE_reading (name dev) "Simulated input") w)
    else (dev, self, w)
  else (dev, set_device i dev self, print (ERROR_unknown_operation (operation req)) w).

(** [dev] is the object [self.devices[i]]. *)
Definition _interrupt_handler (self : t) (i : nat) (dev : Device) (w : World)
    : t * World :=
  let w := print (INTERRUPT_completed (name dev)) w in
  let '(r, w) := RAMManager.free (ram self) (len_buffer (buffer dev)) w in
  let dev := mkDevice (name dev) (busy dev) (BufStr "") in
  let dev := mkDevice (name dev) false (buffer dev) in
  (set_device i dev (set_ram r self), w).

Definition handle_io (self : t) (w : World) : result unit * t * World :=
  match Py.items (io_queue self) with
  | [] => (Return (), self, print QUEUE_no_pending w)
  | req :: rest =>
      let self := set_io_queue (Py.Deque (Py.maxlen (io_queue self)) rest) self in
      match Py.norm_index (length (devices self)) (device_id req) with
      | None => (Raise Py.IndexError, self, w)
      | Some i =>
          match devices self !! i with
          | None => (Raise Py.IndexError, self, w)
          | Some (InternalObj _) => (Raise Py.AttributeError, self, w)
          | Some (IsDevice dev) =>
              if busy dev then
                let w := print (BLOCKED_busy (name dev)) w in
                enqueue_io self (device_id req) (operation req) (data req) w
              else
                let '(dev, self, w) := _device_driver self i dev req w in
                let '(self, w) := _interrupt_handler self i dev w in
                (Return (), self, w)
          end
      end
  end.

(** What a bounded deque guarantees, with the bound the constructor gave
    it. *)
Definition queue_wf (self : t) : Prop :=
  Py.maxlen (io_queue self) = IO_QUEUE_SIZE self ∧
  (Z.of_nat (length (Py.items (io_queue self))) ≤ IO_QUEUE_SIZE self)%Z.

(** The calls a client can make on a simulator. *)
Inductive call :=
| Enqueue_io (device_id : Z) (operation data : string)
| Handle_io.

Definition step (c : call) (st : t * World) : t * World :=
  match c with
  | Enqueue_io device_id operation data =>
      let '(_, self, w) := enqueue_io st.1 device_id operation data st.2 in (self, w)
  | Handle_io =>
      let '(_, self, w) := handle_io st.1 st.2 in (self, w)
  end.

Definition run_calls (cs : list call) (st : t * World) : t * World :=
  foldl (fun st c => step c st) st cs.

(** [run(delay)]: the loop runs as long as the queue is not empty, so it
    is given fuel, one unit for each test of the queue; [None] means the
    fuel ran out.  An exception of [handle_io] or of [time.sleep] leaves
    the loop. *)
Fixpoint run (fuel : nat) (self : t) (delay : Q) (w : World)
    : option (result unit * t * World) :=
  match fuel with
  | O => None
  | S fuel =>
      match Py.items (io_queue self) with
      | [] => Some (Return (), self, w)
      | _ :: _ =>
          match handle_io self w with
          | (Raise e, self, w) => Some (Raise e, self, w)
          | (Return _, self, w) =>
              match time_sleep delay w with
              | (Raise e, w) => Some (Raise e, self, w)
              | (Return _, w) => run fuel self delay w
              end
          end
      end
  end.

(** The device list the constructor builds, with every [Device] idle; the
    buffers are whatever the last requests left. *)
Definition devices_idle (self : t) : Prop :=
  ∃ b1 b2,
    devices self =
      [ InternalObj "SSD";
        IsDevice (mkDevice "USB Stick" false b1);
        IsDevice (mkDevice "Keyboard" false b2) ].

End DeviceDriverSimulator.

(** ** collections.OrderedDict, keyed by block numbers *)
Module OrderedDict.

(** Insertion order, oldest first. *)
Definition t := list (Z * string).

Definition keys (c : t) : list Z := c.*1.

(** [k in c]. *)
Definition contains (k : Z) (c : t) : bool := bool_decide (k ∈ keys c).

(** [c[k]]; [None] is a [KeyError]. *)
Fixpoint get (k : Z) (c : t) : option string :=
  match c with
  | [] => None
  | (k', v) :: c' => if decide (k' = k) then Some v else get k c'
  end.

Definition remove (k : Z) (c : t) : t := filter (fun kv => kv.1 ≠ k) c.

(** [c.move_to_end(k)]; [None] is a [KeyError]. *)
Definition move_to_end (k : Z) (c : t) : option t :=
  match get k c with
  | Some v => Some (remove k c ++ [(k, v)])
  | None => None
  end.

(** [c.popitem(last=False)]; [None] is the [KeyError] of an empty
    dictionary. *)
Definition popitem_first (c : t) : option ((Z * string) * t) :=
  match c with
  | [] => None
  | kv :: c' => Some (kv, c')
  end.

(** [c[k] = v]: a present key keeps its position, a new one goes last. *)
Fixpoint set (k : Z) (v : string) (c : t) : t :=
  match c with
  | [] => [(k, v)]
  | (k', v') :: c' => if decide (k' = k) then (k, v) :: c' else (k', v') :: set k v c'
  end.

End OrderedDict.

(** The tags of [block_state], the strings "free" and "used". *)
Inductive BlockState := free | used.

(** ** InternalMemoryDevice.py *)

(** The methods run one at a time here, so [self.lock] is always free when
    they take it and is left out of the state. *)
Module InternalMemoryDevice.

Record t := mk {
  name : string;
  block_size : Z;
  total_blocks : Z;
  storage : list string;
  block_state : list BlockState;
  cache : OrderedDict.t;
  cache_size : Z;
  failure_chance : Q
}.

Definition set_storage (s : list string) (self : t) : t :=
  mk (name self) (block_size self) (total_blocks self) s (block_state self)
     (cache self) (cache_size self) (failure_chance self).
Definition set_block_state (b : list BlockState) (self : t) : t :=
  mk (name self) (block_size self) (total_blocks self) (storage self) b
     (cache self) (cache_size self) (failure_chance self).
Definition set_cache (c : OrderedDict.t) (self : t) : t :=
  mk (name self) (block_size self) (total_blocks self) (storage self)
     (block_state self) c (cache_size self) (failure_chance self).

(** [capacity // block_size] raises [ZeroDivisionError] for a zero block
    size.  The defaults are [name="SSD Interno"], [capacity=4096],
    [block_size=256], [cache_size=4]. *)
Definition __init__ (name : string) (capacity block_size cache_size : Z)
    (w : World) : result t * World :=
  if decide (block_size = 0)%Z then (Raise Py.ZeroDivisionError, w)
  else
    let total_blocks := (capacity `div` block_size)%Z in
    let self := mk name block_size total_blocks
                   (Py.list_repeat "" total_blocks)
                   (Py.list_repeat free total_blocks)
                   [] cache_size (Qmake 5 100) in
    (Return self, print (INIT_blocks name total_blocks) w).

(** Called with the default bounds [min_ms=10], [max_ms=100] only. *)
Definition simulate_latency (self : t) (w : World) : result unit * World :=
  let '(u, w) := uniform (inject_Z 10) (inject_Z 100) w in
  time_sleep (u / inject_Z 1000)%Q w.

Definition simulate_failure (self : t) (w : World) : bool * World :=
  let '(r, w) := random w in (Qltb r (failure_chance self), w).

Definition _update_cache (self : t) (block_num : Z) (data : string) (w : World)
    : result unit * t * World :=
  if OrderedDict.contains block_num (cache self) then
    match OrderedDict.move_to_end block_num (cache self) with
    | None => (Raise Py.KeyError, self, w)
    | Some c => (Return (), set_cache c self, w)
    end
  else
    if decide (cache_size self ≤ Z.of_nat (length (cache self)))%Z then
      match OrderedDict.popitem_first (cache self) with
      | None => (Raise Py.KeyError, self, w)
      | Some (evicted, c) =>
          let w := print (CACHE_EVICT (name self) evicted.1) w in
          (Return (), set_cache (OrderedDict.set block_num data c) self, w)
      end
    else (Return (), set_cache (OrderedDict.set block_num data (cache self)) self, w).

Definition write_block (self : t) (block_num : Z) (data : string) (w : World)
    : result bool * t * World :=
  match simulate_latency self w with
  | (Raise e, w) => (Raise e, self, w)
  | (Return _, w) =>
      if decide (total_blocks self ≤ block_num)%Z then
        (Return false, self, print (ERROR_out_of_range (name self) block_num) w)
      else
        let '(failed, w) := simulate_failure self w in
        if failed then
          (Return false, self, print (FAILURE_write (name self) block_num) w)
        else
          match Py.setitem (storage self) block_num
                           (Py.slice_to data (block_size self)) with
          | None => (Raise Py.IndexError, self, w)
          | Some s =>
              let self := set_storage s self in
              match Py.setitem (block_state self) block_num used with
              | None => (Raise Py.IndexError, self, w)
              | Some b =>
                  let self := set_block_state b self in
                  match _update_cache self block_num
                                      (Py.slice_to data (block_size self)) w with
                  | (Raise e, self, w) => (Raise e, self, w)
                  | (Return _, self, w) =>
                      (Return true, self,
                       print (WRITE_block (name self) block_num (Py.slice_to data 30)) w)
                  end
              end
          end
  end.

Definition read_block (self : t) (block_num : Z) (w : World)
    : result string * t * World :=
  match simulate_latency self w with
  | (Raise e, w) => (Raise e, self, w)
  | (Return _, w) =>
      if decide (total_blocks self ≤ block_num)%Z then
        (Return "", self, print (ERROR_out_of_range (name self) block_num) w)
      else
        let '(failed, w) := simulate_failure self w in
        if failed then
          (Return "[BLOCK READ FAILURE]", self,
           print (FAILURE_read (name self) block_num) w)
        else
          if OrderedDict.contains block_num (cache self) then
            match OrderedDict.get block_num (cache self) with
            | None => (Raise Py.KeyError, self, w)
            | Some data =>
                let w := print (CACHE_HIT (name self) block_num (Py.slice_to data 30)) w in
                match OrderedDict.move_to_end block_num (cache self) with
                | None => (Raise Py.KeyError, self, w)
                | Some c => (Return data, set_cache c self, w)
                end
            end
          else
            match Py.getitem (storage self) block_num with
            | None => (Raise Py.IndexError, self, w)
            | Some data =>
                match _update_cache self block_num data w with
                | (Raise e, self, w) => (Raise e, self, w)
                | (Return _, self, w) =>
                    (Return data, self,
                     print (READ_block (name self) block_num (Py.slice_to data 30)) w)
                end
            end
  end.

(** The two arrays have one slot per block. *)
Definition blocks_wf (self : t) : Prop :=
  length (storage self) = Z.to_nat (total_blocks self) ∧
  length (block_state self) = Z.to_nat (total_blocks self).

(** What the constructor establishes and every call keeps: one slot per
    block in both arrays, no key cached twice, a slot still marked free holds
    the empty string, every cached key addresses a slot, and (for a
    non-negative block size) no stored or cached payload is longer than a
    block. *)
Definition inv (self : t) : Prop :=
  blocks_wf self ∧
  NoDup (OrderedDict.keys (cache self)) ∧
  (∀ i, block_state self !! i = Some free → storage self !! i = Some "") ∧
  (∀ k, k ∈ OrderedDict.keys (cache self) →
        is_Some (Py.norm_index (length (storage self)) k)) ∧
  ((0 ≤ block_size self)%Z →
   Forall (fun s => String.length s ≤ Z.to_nat (block_size self)) (storage self) ∧
   Forall (fun kv => String.length kv.2 ≤ Z.to_nat (block_size self)) (cache self)).

(** The attributes no method assigns after construction. *)
Definition geometry (self : t) : string * Z * Z * Z * Q :=
  (name self, block_size self, total_blocks self, cache_size self,
   failure_chance self).

(** The calls a client can make on a device. *)
Inductive call :=
| Write_block (block_num : Z) (data : string)
| Read_block (block_num : Z).

Definition step (c : call) (st : t * World) : t * World :=
  match c with
  | Write_block block_num data =>
      let '(_, self, w) := write_block st.1 block_num data st.2 in (self, w)
  | Read_block block_num =>
      let '(_, self, w) := read_block st.1 block_num st.2 in (self, w)
  end.

Definition run_calls (cs : list call) (st : t * World) : t * World :=
  foldl (fun st c => step c st) st cs.

End InternalMemoryDevice.

(** ** Recency order: the vocabulary of the cache properties *)
Module LRU.

(** [touch k l]: the recency list (least recently touched block first)
    after block [k] is touched. *)
Definition touch (k : Z) (l : list Z) : list Z :=
  filter (fun x => x ≠ k) l ++ [k].

(** The distinct blocks of a sequence of touches, least recently touched
    first. *)
Definition recency (ts : list Z) : list Z :=
  foldl (fun l k => touch k l) [] ts.

(** The last [n] elements of [l] (all of [l] when it is shorter). *)
Definition last_n {A} (n : nat) (l : list A) : list A :=
  drop (length l - n) l.



(** What strict LRU at capacity [cache_size] does to the cached keys
    (oldest first) when block [k] is touched: a cached block moves to the
    end; a new block goes to the end, after the oldest key is dropped if the
    cache is full. *)
Definition lru_touch (cache_size : Z) (k : Z) (ks : list Z) : list Z :=
  if bool_decide (k ∈ ks) then filter (fun x => x ≠ k) ks ++ [k]
  else if decide (cache_size ≤ Z.of_nat (length ks))%Z then tail ks ++ [k]
  else ks ++ [k].

End LRU.

(** ** RemovableMemoryDevice.py *)
Module RemovableMemoryDevice.

(** The attributes of [DeviceDriverSimulator.Device] followed by the
    subclass's own. *)
Record t := mk {
  name : string;
  busy : bool;
  buffer : string;
  capacity : Z;
  block_size : Z;
  total_blocks : Z;
  storage : list string;
  inserted : bool;
  block_state : list BlockState;
  failure_chance : Q
}.

Definition set_storage (s : list string) (self : t) : t :=
  mk (name self) (busy self) (buffer self) (capacity self) (block_size self)
     (total_blocks self) s (inserted self) (block_state self) (failure_chance self).
Definition set_block_state (b : list BlockState) (self : t) : t :=
  mk (name self) (busy self) (buffer self) (capacity self) (block_size self)
     (total_blocks self) (storage self) (inserted self) b (failure_chance self).
Definition set_inserted (i : bool) (self : t) : t :=
  mk (name self) (busy self) (buffer self) (capacity self) (block_size self)
     (total_blocks self) (storage self) i (block_state self) (failure_chance self).

(** The defaults are [name="USB Stick"], [capacity=1024],
    [block_size=128]. *)
Definition __init__ (name : string) (capacity block_size : Z) : result t :=
  if decide (block_size = 0)%Z then Raise Py.ZeroDivisionError
  else
    let total_blocks := (capacity `div` block_size)%Z in
    Return (mk name false "" capacity block_size total_blocks
               (Py.list_repeat "" total_blocks) true
               (Py.list_repeat free total_blocks) (Qmake 3 100)).

(** Called with the default bounds [min_ms=20], [max_ms=200] only. *)
Definition simulate_latency (self : t) (w : World) : result unit * World :=
  let '(u, w) := uniform (inject_Z 20) (inject_Z 200) w in
  time_sleep (u / inject_Z 1000)%Q w.

Definition simulate_failure (self : t) (w : World) : bool * World :=
  let '(r, w) := random w in (Qltb r (failure_chance self), w).

Definition eject (self : t) (w : World) : t * World :=
  let self := set_inserted false self in
  (self, print (REMOVABLE_removed (name self)) w).

Definition insert (self : t) (w : World) : t * World :=
  let self := set_inserted true self in
  (self, print (REMOVABLE_inserted (name self)) w).

Definition write_block (self : t) (block_num : Z) (data : string) (w : World)
    : result bool * t * World :=
  if negb (inserted self) then
    (Return false, self, print (ERROR_not_inserted (name self)) w)
  else if decide (total_blocks self ≤ block_num)%Z then
    (Return false, self, print (ERROR_out_of_range (name self) block_num) w)
  else
    match simulate_latency self w with
    | (Raise e, w) => (Raise e, self, w)
    | (Return _, w) =>
        let '(failed, w) := simulate_failure self w in
        if failed then
          (Return false, self, print (FAILURE_write (name self) block_num) w)
        else
          match Py.setitem (storage self) block_num
                           (Py.slice_to data (block_size self)) with
          | None => (Raise Py.IndexError, self, w)
          | Some s =>
              let self := set_storage s self in
              match Py.setitem (block_state self) block_num used with
              | None => (Raise Py.IndexError, self, w)
              | Some b =>
                  (Return true, set_block_state b self,
                   print (WRITE_block (name self) block_num (Py.slice_to data 30)) w)
              end
          end
    end.

Definition read_block (self : t) (block_num : Z) (w : World)
    : result string * t * World :=
  if negb (inserted self) then
    (Return "", self, print (ERROR_not_inserted (name self)) w)
  else if decide (total_blocks self ≤ block_num)%Z then
    (Return "", self, print (ERROR_out_of_range (name self) block_num) w)
  else
    match simulate_latency self w with
    | (Raise e, w) => (Raise e, self, w)
    | (Return _, w) =>
        let '(failed, w) := simulate_failure self w in
        if failed then
          (Return "[READ FAILURE]", self, print (FAILURE_read (name self) block_num) w)
        else
          match Py.getitem (storage self) block_num with
          | None => (Raise Py.IndexError, self, w)
          | Some data =>
              (Return data, self,
               print (READ_block (name self) block_num (Py.slice_to data 30)) w)
          end
    end.

(** The two arrays have one slot per block. *)
Definition blocks_wf (self : t) : Prop :=
  length (storage self) = Z.to_nat (total_blocks self) ∧
  length (block_state self) = Z.to_nat (total_blocks self).

End RemovableMemoryDevice.

(** ** Driver_USB.py *)
Module Driver_USB.

Record DeviceControlBlock := mkDCB {
  device_id : Z;
  device_name : string;
  capacity_gb : Z;
  is_connected : bool
}.

Definition DeviceControlBlock__init__ (device_id : Z) (device_name : string)
    (capacity_gb : Z) : DeviceControlBlock :=
  mkDCB device_id device_name capacity_gb true.


(** Control blocks are shared between a driver, the interrupt handlers it
    registers and its creator: they live in a store, and the others hold
    their address. *)
Definition Store := nat -> DeviceControlBlock.

Definition store_set (a : nat) (d : DeviceControlBlock) (h : Store) : Store :=
  fun b => if decide (b = a) then d else h b.

(** [self.dcb] is the address of the control block.  [self.interrupt_table]
    is only used by [__init__]. *)
Record USBDriver := mkUSBDriver {
  dcb : nat;
  transfer_rate_mb_s : Q
}.

(** The callbacks found in an interrupt table: bound methods of a driver. *)
Inductive handler :=
| on_usb_insert_of (self : USBDriver)
| on_usb_remove_of (self : USBDriver).

Record InterruptTable := mkInterruptTable {
  interrupt_handlers : gmap string handler
}.

Definition InterruptTable__init__ : InterruptTable := mkInterruptTable ∅.

Definition register_interrupt_handler (self : InterruptTable)
    (interrupt_type : string) (h : handler) : InterruptTable :=
  mkInterruptTable (<[interrupt_type:=h]> (interrupt_handlers self)).

Definition on_usb_insert (self : USBDriver) (h : Store) (w : World) : Store * World :=
  let w := print (USB_connected (device_name (h (dcb self)))) w in
  let d := h (dcb self) in
  (store_set (dcb self)
     (mkDCB (device_id d) (device_name d) (capacity_gb d) true) h, w).

Definition on_usb_remove (self : USBDriver) (h : Store) (w : World) : Store * World :=
  let w := print (USB_disconnected (device_name (h (dcb self)))) w in
  let d := h (dcb self) in
  (store_set (dcb self)
     (mkDCB (device_id d) (device_name d) (capacity_gb d) false) h, w).

Definition call_handler (f : handler) (h : Store) (w : World) : Store * World :=
  match f with
  | on_usb_insert_of self => on_usb_insert self h w
  | on_usb_remove_of self => on_usb_remove self h w
  end.

(** Called without further arguments. *)
Definition trigger_interrupt (self : InterruptTable) (interrupt_type : string)
    (h : Store) (w : World) : Store * World :=
  match interrupt_handlers self !! interrupt_type with
  | Some f => call_handler f h w
  | None => (h, print (INTERRUPT_no_handler interrupt_type) w)
  end.

Definition USBDriver__init__ (device_control_block : nat)
    (interrupt_table : InterruptTable) : USBDriver * InterruptTable :=
  let self := mkUSBDriver device_control_block (inject_Z 30) in
  let interrupt_table :=
    register_interrupt_handler interrupt_table "USB_INSERT" (on_usb_insert_of self) in
  let interrupt_table :=
    register_interrupt_handler interrupt_table "USB_REMOVE" (on_usb_remove_of self) in
  (self, interrupt_table).


(** [DeviceDriverTable]: a dictionary from device identifiers to drivers. *)
Record DeviceDriverTable := mkDeviceDriverTable {
  drivers : gmap Z USBDriver
}.

Definition DeviceDriverTable__init__ : DeviceDriverTable := mkDeviceDriverTable ∅.

Definition register_driver (self : DeviceDriverTable) (device_id : Z)
    (driver_instance : USBDriver) : DeviceDriverTable :=
  mkDeviceDriverTable (<[device_id:=driver_instance]> (drivers self)).

(** [self.drivers.get(device_id, None)]. *)
Definition get_driver (self : DeviceDriverTable) (device_id : Z)
    : option USBDriver :=
  drivers self !! device_id.

End Driver_USB.

(** ** KeyboardDevice.py *)

(** The driver's event handler and buffer reader.  The lines this file
    prints are kept in a log of their own, [Line]; the lock is always free
    when the methods take it and is left out; [start] and [os_reader] poll
    the real keyboard and are not modelled. *)
Module KeyboardDevice.

(** What the keyboard library hands to the hook: [event.name] and
    [event.event_type] ('down' or 'up'). *)
Record KeyboardEvent := mkKeyboardEvent {
  event_name : string;
  event_event_type : string
}.

Inductive Line :=
| INTERRUPT_key (EVENT_TYPE name : string)
| READ_key (EVENT_TYPE key : string) (timestamp : Q).

(** The attributes of [DeviceDriverSimulator.Device], with [buffer] rebound
    to a bounded deque of entries, and [running]. *)
Record t := mk {
  name : string;
  busy : bool;
  buffer : Py.deque DeviceDriverSimulator.KeyEvent;
  running : bool
}.

(** The defaults are [name="Keyboard"], [buffer_size=20];
    [deque(maxlen=buffer_size)] raises [ValueError] for a negative size. *)
Definition __init__ (name : string) (buffer_size : Z) : result t :=
  if decide (buffer_size < 0)%Z then Raise Py.ValueError
  else Return (mk name false (Py.Deque buffer_size []) false).

(** The dictionary appended for an event; [now] is what [time.time()]
    returns. *)
Definition entry_of (event : KeyboardEvent) (now : Q)
    : DeviceDriverSimulator.KeyEvent :=
  {| DeviceDriverSimulator.key := event_name event;
     DeviceDriverSimulator.event_type := event_event_type event;
     DeviceDriverSimulator.timestamp := now |}.

Definition _keyboard_interrupt (self : t) (event : KeyboardEvent) (now : Q)
    (out : list Line) : t * list Line :=
  let self := mk (name self) (busy self)
                 (Py.deque_append (buffer self) (entry_of event now))
                 (running self) in
  (self, out ++ [INTERRUPT_key (Py.upper (event_event_type event))
                               (event_name event)]).

(** The line [read_buffer] prints for an entry. *)
Definition read_line (entry : DeviceDriverSimulator.KeyEvent) : Line :=
  READ_key (Py.upper (DeviceDriverSimulator.event_type entry))
           (DeviceDriverSimulator.key entry)
           (DeviceDriverSimulator.timestamp entry).

(** The loop of [read_buffer]: pop from the left and print, until the
    deque is empty. *)
Fixpoint drain (entries : list DeviceDriverSimulator.KeyEvent)
    (out : list Line) : list DeviceDriverSimulator.KeyEvent * list Line :=
  match entries with
  | [] => ([], out)
  | entry :: entries => drain entries (out ++ [read_line entry])
  end.

Definition read_buffer (self : t) (out : list Line) : t * list Line :=
  let '(entries, out) := drain (Py.items (buffer self)) out in
  (mk (name self) (busy self) (Py.Deque (Py.maxlen (buffer self)) entries)
      (running self), out).

(** A sequence of key events with the time of each. *)
Definition interrupts (events : list (KeyboardEvent * Q)) (st : t * list Line)
    : t * list Line :=
  foldl (fun st ev => _keyboard_interrupt st.1 ev.1 ev.2 st.2) st events.

End KeyboardDevice.

(** * Properties *)

(** ** The resource accountant *)
Section RAMManager_facts.
Import DeviceDriverSimulator.
Import RAMManager.
Local Open Scope Z_scope.

Lemma allocate_size self amount w : size (allocate self amount w).1.2 = size self.
Proof. unfold allocate. by case_decide. Qed.

Lemma free_size self amount w : size (free self amount w).1 = size self.
Proof. done. Qed.

Lemma allocate_ok self amount w :
  0 ≤ amount → ram_ok self → ram_ok (allocate self amount w).1.2.
Proof. unfold ram_ok, allocate. intros ? ?. case_decide; simpl; lia. Qed.

Lemma free_ok self amount w :
  0 ≤ amount → ram_ok self → ram_ok (free self amount w).1.
Proof. unfold ram_ok, free. simpl. lia. Qed.

Lemma step_ok c st :
  0 ≤ amount_of c → ram_ok st.1 →
  ram_ok (step c st).1 ∧ size (step c st).1 = size st.1.
Proof.
  destruct st as [self w], c as [a|a]; intros Ha Hok.
  - pose proof (allocate_ok self a w Ha Hok) as H.
    pose proof (allocate_size self a w) as Hs.
    simpl in *. destruct (allocate self a w) as [[ok self'] w']. done.
  - split; [exact (free_ok self a w Ha Hok) | done].
Qed.

Lemma run_calls_ok cs st :
  Forall (fun c => 0 ≤ amount_of c) cs → ram_ok st.1 →
  ram_ok (run_calls cs st).1 ∧ size (run_calls cs st).1 = size st.1.
Proof.
  revert st. induction cs as [|c cs IH]; intros st Hcs Hok; [done|].
  inversion_clear Hcs as [|? ? Hc Hcs'].
  destruct (step_ok c st Hc Hok) as [Hok' Hsz].
  destruct (IH (step c st) Hcs' Hok') as [H1 H2].
  split; [exact H1 | by rewrite <- Hsz].
Qed.

(** C2: [allocate(amount)] succeeds exactly when [used + amount] does not
    exceed the capacity; a success adds [amount] to [used], a failure
    returns [False], leaves the accountant as it was and reports the lack of
    memory.  With capacity 1024 and nothing used, [allocate(2048)] is
    rejected and [used] stays 0. *)
Theorem C2_allocate_iff_fits (self : RAMManager.t) (amount : Z) (w : World) :
  let '(ok, self', w') := allocate self amount w in
  (ok = true ↔ used self + amount ≤ size self) ∧
  (ok = true → used self' = used self + amount ∧ size self' = size self) ∧
  (ok = false → self' = self ∧ w' = print (RAM_not_enough amount) w) ∧
  (allocate (RAMManager.__init__ 1024) 2048 w).1 = (false, RAMManager.__init__ 1024) ∧
  used (RAMManager.__init__ 1024) = 0.
Proof.
  unfold allocate. case_decide; simpl.
  - repeat split; try done; try lia.
  - repeat split; try done; try lia.
Qed.

(** C3: starting from a fresh accountant of non-negative capacity, after
    every prefix of every sequence of [allocate] and [free] calls with
    non-negative amounts, [used] is between 0 and the capacity; and
    [free(amount)] sets [used] to [max(0, used - amount)]. *)
Theorem C3_used_within_bounds (capacity : Z) (cs : list RAMManager.call)
    (w : World) (n : nat) :
  0 ≤ capacity →
  Forall (fun c => 0 ≤ amount_of c) cs →
  let self := (run_calls (take n cs) (RAMManager.__init__ capacity, w)).1 in
  0 ≤ used self ≤ capacity ∧
  ∀ amount w', used (free self amount w').1 = Z.max 0 (used self - amount).
Proof.
  intros Hcap Hcs.
  assert (Hn : Forall (fun c => 0 ≤ amount_of c) (take n cs)).
  { by apply Forall_take. }
  destruct (run_calls_ok (take n cs) (RAMManager.__init__ capacity, w) Hn)
    as [Hok Hsz].
  { unfold ram_ok. simpl. lia. }
  unfold ram_ok in Hok. simpl in *. split; [lia | done].
Qed.

Lemma C3_used_within_bounds_witness :
  let cs := [Allocate 100; Free 200; Allocate 2048; Allocate 1000] in
  let w := mkWorld (fun _ => 0%N) 0 [] [] in
  let self := (run_calls (take 4 cs) (RAMManager.__init__ 1024, w)).1 in
  0 ≤ used self ≤ 1024 ∧
  ∀ amount w', used (free self amount w').1 = Z.max 0 (used self - amount).
Proof.
  apply (C3_used_within_bounds 1024
           [Allocate 100; Free 200; Allocate 2048; Allocate 1000]
           (mkWorld (fun _ => 0%N) 0 [] []) 4).
  - lia.
  - repeat constructor; simpl; lia.
Defined.

End RAMManager_facts.

(** ** The simulator: queue and request lifecycle *)
Section DeviceDriverSimulator_facts.
Import DeviceDriverSimulator.
Local Open Scope Z_scope.

Lemma init_queue_wf ram_size buffer_size queue_size w self w' :
  __init__ ram_size buffer_size queue_size w = (Return self, w') →
  queue_wf self ∧ IO_QUEUE_SIZE self = queue_size.
Proof.
  unfold __init__. case_decide; [done|]. intros [= <- <-].
  unfold queue_wf. simpl. lia.
Qed.

(** What [enqueue_io] does to the simulator, by cases on the length test. *)
Lemma enqueue_io_cases self device_id operation data w :
  queue_wf self →
  let '(r, self', w') := enqueue_io self device_id operation data w in
  BUFFER_SIZE self' = BUFFER_SIZE self ∧ IO_QUEUE_SIZE self' = IO_QUEUE_SIZE self ∧
  devices self' = devices self ∧ ram self' = ram self ∧
  Py.maxlen (io_queue self') = Py.maxlen (io_queue self) ∧
  if decide (IO_QUEUE_SIZE self ≤ Z.of_nat (length (Py.items (io_queue self))))
  then r = Return () ∧ self' = self ∧ w' = print SPOOLING_queue_full w
  else Py.items (io_queue self') =
         Py.items (io_queue self) ++ [mkIORequest device_id operation data] ∧
       match Py.getitem (devices self) device_id with
       | Some dev =>
           r = Return () ∧
           w' = print (QUEUE_enqueued (Py.upper operation) (obj_name dev)) w
       | None => r = Raise Py.IndexError ∧ w' = w
       end.
Proof.
  intros [Hmax Hlen]. unfold enqueue_io.
  destruct (decide (IO_QUEUE_SIZE self ≤ _)) as [Hfull|Hroom]; [done|].
  unfold Py.deque_append.
  destruct (decide (Py.maxlen (io_queue self) = 0)) as [H0|_]; [lia|].
  destruct (decide (Py.maxlen (io_queue self) ≤ _)) as [Hf|_]; [lia|].
  simpl. destruct (Py.getitem (devices self) device_id); done.
Qed.

Lemma enqueue_io_wf self device_id operation data w :
  queue_wf self → queue_wf (enqueue_io self device_id operation data w).1.2.
Proof.
  intros Hwf. pose proof (enqueue_io_cases self device_id operation data w Hwf) as H.
  destruct (enqueue_io self device_id operation data w) as [[r self'] w'].
  destruct H as (_ & Hq & _ & _ & Hm & H). simpl.
  destruct Hwf as [Hmax Hlen]. unfold queue_wf. rewrite Hq, Hm.
  case_decide as Hc.
  - destruct H as (_ & -> & _). done.
  - destruct H as [-> _]. rewrite length_app. simpl. lia.
Qed.

Lemma _device_driver_frame self i dev req w :
  let '(dev', self', w') := _device_driver self i dev req w in
  BUFFER_SIZE self' = BUFFER_SIZE self ∧ IO_QUEUE_SIZE self' = IO_QUEUE_SIZE self ∧
  io_queue self' = io_queue self ∧
  devices self' = <[i:=IsDevice dev']> (devices self) ∧
  name dev' = name dev ∧ busy dev' = true.
Proof.
  unfold _device_driver. repeat case_decide; simpl;
    try destruct (RAMManager.allocate _ _ _) as [[[] ?] ?]; done.
Qed.

Lemma _interrupt_handler_frame self i dev w :
  let '(self', w') := _interrupt_handler self i dev w in
  BUFFER_SIZE self' = BUFFER_SIZE self ∧ IO_QUEUE_SIZE self' = IO_QUEUE_SIZE self ∧
  io_queue self' = io_queue self ∧
  devices self' = <[i:=IsDevice (mkDevice (name dev) false (BufStr ""))]> (devices self).
Proof. done. Qed.

Lemma handle_io_wf self w : queue_wf self → queue_wf (handle_io self w).1.2.
Proof.
  intros Hwf. unfold handle_io.
  destruct (Py.items (io_queue self)) as [|req rest] eqn:Hitems; [done|].
  set (self1 := set_io_queue _ self).
  assert (Hwf1 : queue_wf self1).
  { destruct Hwf as [Hmax Hlen]. rewrite Hitems in Hlen.
    unfold queue_wf, self1. simpl in *. lia. }
  destruct (Py.norm_index _ _) as [i|]; [|done].
  destruct (devices self1 !! i) as [[n|dev]|]; [done| |done].
  destruct (busy dev).
  - by apply enqueue_io_wf.
  - pose proof (_device_driver_frame self1 i dev req w) as Hd.
    destruct (_device_driver self1 i dev req w) as [[dev' self2] w2].
    destruct Hd as (_ & Hq & Hio & _). simpl.
    unfold queue_wf in *. simpl. rewrite Hq, Hio. done.
Qed.

Lemma step_wf c st : queue_wf st.1 → queue_wf (step c st).1 ∧
  IO_QUEUE_SIZE (step c st).1 = IO_QUEUE_SIZE st.1.
Proof.
  destruct st as [self w], c as [d o x|]; simpl; intros Hwf.
  - pose proof (enqueue_io_wf self d o x w Hwf) as H.
    pose proof (enqueue_io_cases self d o x w Hwf) as Hc.
    destruct (enqueue_io self d o x w) as [[r self'] w']. simpl in *.
    split; [done | tauto].
  - pose proof (handle_io_wf self w Hwf) as H.
    assert (IO_QUEUE_SIZE (handle_io self w).1.2 = IO_QUEUE_SIZE self) as Hs.
    { unfold handle_io.
      destruct (Py.items (io_queue self)) as [|req rest] eqn:Hitems; [done|].
      set (self1 := set_io_queue _ self).
      assert (Hwf1 : queue_wf self1).
      { destruct Hwf as [Hmax Hlen]. rewrite Hitems in Hlen.
        unfold queue_wf, self1. simpl in *. lia. }
      destruct (Py.norm_index _ _) as [i|]; [|done].
      destruct (devices self1 !! i) as [[n|dev]|]; [done| |done].
      destruct (busy dev).
      - pose proof (enqueue_io_cases self1 (device_id req) (operation req)
                      (data req) (print (BLOCKED_busy (name dev)) w) Hwf1) as Hc.
        destruct (enqueue_io self1 _ _ _ _) as [[r self'] w']. simpl. tauto.
      - pose proof (_device_driver_frame self1 i dev req w) as Hd.
        destruct (_device_driver self1 i dev req w) as [[dev' self2] w2].
        simpl. tauto. }
    destruct (handle_io self w) as [[r self'] w']. done.
Qed.

Lemma run_calls_wf cs st : queue_wf st.1 →
  queue_wf (run_calls cs st).1 ∧
  IO_QUEUE_SIZE (run_calls cs st).1 = IO_QUEUE_SIZE st.1.
Proof.
  revert st. induction cs as [|c cs IH]; intros st Hwf; [done|].
  destruct (step_wf c st Hwf) as [Hwf' Hs].
  destruct (IH (step c st) Hwf') as [H1 H2].
  split; [exact H1 | by rewrite <- Hs].
Qed.

(** A request served on a device that is not busy leaves the device idle,
    and leaves [used] as it was whenever the allocation was granted. *)
Lemma handle_io_served self w req rest i dev :
  Py.items (io_queue self) = req :: rest →
  Py.norm_index (length (devices self)) (device_id req) = Some i →
  devices self !! i = Some (IsDevice dev) →
  busy dev = false →
  let '(r, self', w') := handle_io self w in
  r = Return () ∧
  devices self' !! i = Some (IsDevice (mkDevice (name dev) false (BufStr ""))) ∧
  Py.items (io_queue self') = rest ∧
  (operation req = "write" ∨ operation req = "read" →
   0 ≤ RAMManager.used (ram self) →
   ∀ amount,
     amount = (if decide (operation req = "write")
               then Py.len_str (Py.slice_to (data req) (BUFFER_SIZE self))
               else Py.len_str "Simulated input") →
     RAMManager.used (ram self') =
       if decide (RAMManager.used (ram self) + amount ≤ RAMManager.size (ram self))
       then RAMManager.used (ram self)
       else Z.max 0 (RAMManager.used (ram self) - amount)).
Proof.
  intros Hitems Hi Hdev Hbusy. unfold handle_io. rewrite Hitems.
  simpl. rewrite Hi, Hdev, Hbusy.
  unfold _device_driver, _interrupt_handler, RAMManager.allocate, RAMManager.free.
  assert (Hlt : (i < length (devices self))%nat) by (by eapply lookup_lt_Some).
  repeat case_decide; simpl; try done;
    (split; [done|]); (split; [by rewrite list_insert_insert_eq, list_lookup_insert_eq|]);
    (split; [done|]); intros Hop Hused amount ->; try tauto;
    repeat case_decide; try done;
    cbv [len_buffer buffer ram set_io_queue BUFFER_SIZE Py.len_str] in *; lia.
Qed.

(** Within the simulator nothing else allocates, so [used] is 0 when a
    request starts, and the floor at zero of [free] keeps it there whatever
    the accountant answered. *)
Lemma handle_io_used_zero self w :
  RAMManager.used (ram self) = 0 →
  RAMManager.used (ram (handle_io self w).1.2) = 0.
Proof.
  intros Hused. unfold handle_io.
  destruct (Py.items (io_queue self)) as [|req rest]; [done|].
  cbn [devices set_io_queue].
  destruct (Py.norm_index _ _) as [i|]; [|done].
  destruct (devices self !! i) as [[n|dev]|]; [done| |done].
  destruct (busy dev).
  - unfold enqueue_io. case_decide; [done|]. cbn [devices set_io_queue].
    by destruct (Py.getitem _ _).
  - unfold _device_driver, _interrupt_handler, RAMManager.allocate, RAMManager.free.
    cbn [ram set_io_queue]. rewrite Hused.
    assert (0 ≤ len_buffer (buffer dev)) as Hlen.
    { destruct (buffer dev); unfold len_buffer, Py.len_str; lia. }
    repeat case_decide; cbn; unfold Py.len_str in *; lia.
Qed.

(** [InternalMemoryDevice] is not a [Device]: a request for device 0 is
    taken off the queue and [dev.busy] raises [AttributeError]. *)
Lemma handle_io_internal_device_raises :
  let w := mkWorld (fun _ => 0%N) 0 [] [] in
  match __init__ 1024 128 10 w with
  | (Return self0, w0) =>
      let '(r1, self1, w1) := enqueue_io self0 0 "read" "" w0 in
      let '(r2, self2, w2) := handle_io self1 w1 in
      r1 = Return () ∧ r2 = Raise Py.AttributeError ∧
      Py.items (io_queue self2) = []
  | _ => False
  end.
Proof. vm_compute. repeat split. Qed.

(** C9: on a simulator built by the constructor and driven by any sequence
    of [enqueue_io] and [handle_io] calls, the queue never holds more than
    [queue_size] requests; [enqueue_io] on a queue that has reached
    [queue_size] returns at once, reports the full queue and changes
    nothing; otherwise it appends the request at the tail. *)
Theorem C9_bounded_queue (ram_size buffer_size queue_size : Z) (w0 w0' : World)
    (self0 : DeviceDriverSimulator.t) (cs : list DeviceDriverSimulator.call) :
  __init__ ram_size buffer_size queue_size w0 = (Return self0, w0') →
  let '(self, w) := run_calls cs (self0, w0') in
  IO_QUEUE_SIZE self = queue_size ∧
  Z.of_nat (length (Py.items (io_queue self))) ≤ queue_size ∧
  ∀ device_id operation data,
    let '(r, self', w') := enqueue_io self device_id operation data w in
    if decide (queue_size ≤ Z.of_nat (length (Py.items (io_queue self))))
    then r = Return () ∧ self' = self ∧ w' = print SPOOLING_queue_full w
    else Py.items (io_queue self') =
           Py.items (io_queue self) ++ [mkIORequest device_id operation data].
Proof.
  intros Hinit. destruct (init_queue_wf _ _ _ _ _ _ Hinit) as [Hwf0 Hsz0].
  destruct (run_calls_wf cs (self0, w0') Hwf0) as [Hwf Hsz].
  destruct (run_calls cs (self0, w0')) as [self w]. simpl in *.
  rewrite Hsz0 in Hsz. split; [done|]. split.
  { destruct Hwf as [_ Hlen]. lia. }
  intros device_id operation data.
  pose proof (enqueue_io_cases self device_id operation data w Hwf) as Hc.
  destruct (enqueue_io self device_id operation data w) as [[r self'] w'].
  rewrite Hsz in Hc. destruct Hc as (_ & _ & _ & _ & _ & Hc).
  case_decide; [done | tauto].
Qed.

Lemma C9_bounded_queue_witness :
  let w0 := mkWorld (fun _ => 0%N) 0 [] [] in
  let self0 := mk 128 2
      [ InternalObj "SSD";
        IsDevice (mkDevice "USB Stick" false (BufStr ""));
        IsDevice (mkDevice "Keyboard" false (BufDeque [])) ]
      (Py.Deque 2 []) (RAMManager.__init__ 1024) in
  let cs := [Enqueue_io 1 "write" "a"; Enqueue_io 2 "read" "";
             Enqueue_io 1 "write" "b"; Handle_io; Enqueue_io 0 "read" ""] in
  let '(self, w) := run_calls cs (self0, print (INIT_blocks "SSD" 8) w0) in
  IO_QUEUE_SIZE self = 2 ∧
  Z.of_nat (length (Py.items (io_queue self))) ≤ 2 ∧
  ∀ device_id operation data,
    let '(r, self', w') := enqueue_io self device_id operation data w in
    if decide (2 ≤ Z.of_nat (length (Py.items (io_queue self))))
    then r = Return () ∧ self' = self ∧ w' = print SPOOLING_queue_full w
    else Py.items (io_queue self') =
           Py.items (io_queue self) ++ [mkIORequest device_id operation data].
Proof.
  exact (C9_bounded_queue 1024 128 2 (mkWorld (fun _ => 0%N) 0 [] []) _ _
           [Enqueue_io 1 "write" "a"; Enqueue_io 2 "read" "";
            Enqueue_io 1 "write" "b"; Handle_io; Enqueue_io 0 "read" ""]
           eq_refl).
Defined.

(** C6: when the request at the head of the queue targets a device whose
    [busy] flag is set, [handle_io] puts a request with the same device,
    operation and payload at the tail of the queue and returns; the devices
    and the accountant are left as they were, and nothing but the
    blocked and re-enqueued notices is printed. *)
Theorem C6_busy_request_requeued (self : DeviceDriverSimulator.t) (w : World)
    (req : IORequest) (rest : list IORequest) (dev : Device) :
  queue_wf self →
  Py.items (io_queue self) = req :: rest →
  Py.getitem (devices self) (device_id req) = Some (IsDevice dev) →
  busy dev = true →
  let '(r, self', w') := handle_io self w in
  r = Return () ∧
  Py.items (io_queue self') = rest ++ [req] ∧
  devices self' = devices self ∧
  ram self' = ram self ∧
  w' = print (QUEUE_enqueued (Py.upper (operation req)) (name dev))
         (print (BLOCKED_busy (name dev)) w).
Proof.
  intros Hwf Hitems Hget Hbusy. unfold handle_io. rewrite Hitems.
  set (self1 := set_io_queue _ self).
  assert (Hwf1 : queue_wf self1).
  { destruct Hwf as [Hmax Hlen]. rewrite Hitems in Hlen.
    unfold queue_wf, self1. simpl in *. lia. }
  unfold Py.getitem in Hget. change (devices self1) with (devices self).
  destruct (Py.norm_index _ _) as [i|] eqn:Hi; [|done].
  rewrite Hget, Hbusy.
  pose proof (enqueue_io_cases self1 (device_id req) (operation req) (data req)
                (print (BLOCKED_busy (name dev)) w) Hwf1) as Hc.
  destruct (enqueue_io self1 _ _ _ _) as [[r self'] w'].
  destruct Hc as (_ & _ & Hd & Hr & _ & Hc).
  case_decide as Hfull.
  { destruct Hwf as [Hmax Hlen]. rewrite Hitems in Hlen.
    unfold self1 in Hfull. simpl in *. lia. }
  destruct Hc as [Hq Hc]. unfold Py.getitem in Hc.
  change (devices self1) with (devices self) in Hc.
  rewrite Hi, Hget in Hc. destruct Hc as [-> ->].
  rewrite Hq. simpl. by destruct req.
Qed.

Lemma C6_busy_request_requeued_witness :
  let self := mk 128 10
      [ InternalObj "SSD";
        IsDevice (mkDevice "USB Stick" true (BufStr "abc"));
        IsDevice (mkDevice "Keyboard" false (BufDeque [])) ]
      (Py.Deque 10 [mkIORequest 1 "write" "hello"; mkIORequest 2 "read" ""])
      (RAMManager.mk 1024 3) in
  let w := mkWorld (fun _ => 0%N) 0 [] [] in
  let '(r, self', w') := handle_io self w in
  r = Return () ∧
  Py.items (io_queue self') = [mkIORequest 2 "read" ""] ++ [mkIORequest 1 "write" "hello"] ∧
  devices self' = devices self ∧
  ram self' = ram self ∧
  w' = print (QUEUE_enqueued (Py.upper "write") "USB Stick")
         (print (BLOCKED_busy "USB Stick") w).
Proof.
  apply (C6_busy_request_requeued
           (mk 128 10
              [ InternalObj "SSD";
                IsDevice (mkDevice "USB Stick" true (BufStr "abc"));
                IsDevice (mkDevice "Keyboard" false (BufDeque [])) ]
              (Py.Deque 10 [mkIORequest 1 "write" "hello"; mkIORequest 2 "read" ""])
              (RAMManager.mk 1024 3))
           (mkWorld (fun _ => 0%N) 0 [] [])
           (mkIORequest 1 "write" "hello") [mkIORequest 2 "read" ""]
           (mkDevice "USB Stick" true (BufStr "abc"))).
  - unfold queue_wf. simpl. lia.
  - reflexivity.
  - reflexivity.
  - reflexivity.
Defined.

(** C5 (the code at a failing input): with 10 of 16 bytes already accounted
    for, a write of 8 bytes is refused by the accountant, yet the completion
    interrupt frees 8 bytes all the same: the request is served on an idle
    device, the device is idle again afterwards, but [used] has dropped from
    10 to 2. *)
Theorem C5_refused_allocation_is_freed :
  let w := mkWorld (fun _ => 0%N) 0 [] [] in
  match __init__ 16 128 10 w with
  | (Return self0, w0) =>
      let '(ok1, r1, w1) := RAMManager.allocate (ram self0) 10 w0 in
      let '(r2, self2, w2) := enqueue_io (set_ram r1 self0) 1 "write" "12345678" w1 in
      let '(r3, self3, w3) := handle_io self2 w2 in
      ok1 = true ∧ r2 = Return () ∧ r3 = Return () ∧
      devices self2 !! 1%nat =
        Some (IsDevice (mkDevice "USB Stick" false (BufStr ""))) ∧
      devices self3 !! 1%nat =
        Some (IsDevice (mkDevice "USB Stick" false (BufStr ""))) ∧
      RAMManager.used (ram self2) = 10 ∧
      RAMManager.used (ram self3) = 2 ∧
      stdout w3 = stdout w2 ++ [RAM_not_enough 8; INTERRUPT_completed "USB Stick";
                                RAM_freed 8 2 16]
  | _ => False
  end.
Proof.
  vm_compute. repeat split.
Qed.

End DeviceDriverSimulator_facts.

(** ** Python indexing and slicing *)
Section Py_facts.

Lemma norm_index_lt n i k : Py.norm_index n i = Some k → k < n.
Proof. unfold Py.norm_index. repeat case_decide; intros [= <-]; lia. Qed.

Lemma norm_index_nonneg n i :
  (0 ≤ i < Z.of_nat n)%Z → Py.norm_index n i = Some (Z.to_nat i).
Proof. intros H. unfold Py.norm_index. by rewrite decide_True. Qed.


Lemma getitem_setitem {A} (l l' : list A) i x :
  Py.setitem l i x = Some l' → Py.getitem l' i = Some x.
Proof.
  unfold Py.setitem, Py.getitem.
  destruct (Py.norm_index (length l) i) as [n|] eqn:Hn; [|done].
  intros [= <-]. rewrite length_insert, Hn.
  apply list_lookup_insert_eq. by eapply norm_index_lt.
Qed.

Lemma substring_0_length n s :
  String.length (String.substring 0 n s) = min n (String.length s).
Proof.
  revert n. induction s as [|c s IH]; intros [|n]; simpl; try done.
  by rewrite IH.
Qed.

(** [s[:n]] for a non-negative [n] keeps at most [n] characters. *)
Lemma slice_to_length s n :
  (0 ≤ n)%Z →
  String.length (Py.slice_to s n) = min (Z.to_nat n) (String.length s).
Proof.
  intros H. unfold Py.slice_to. rewrite decide_True by done.
  apply substring_0_length.
Qed.

End Py_facts.

(** ** Random draws and simulated latency *)
Section World_facts.

Lemma random_nonneg w : (0 <= (random w).1)%Q.
Proof.
  unfold random, draw_at, Qle. cbn [fst Qnum Qden].
  rewrite Z.mul_0_l, Z.mul_1_r. apply N2Z.is_nonneg.
Qed.

Lemma time_sleep_returns secs w :
  (0 <= secs)%Q →
  time_sleep secs w =
    (Return (), mkWorld (rng w) (draws w) (slept w ++ [secs]) (stdout w)).
Proof.
  intros H. unfold time_sleep. destruct (secs ?= 0)%Q eqn:E; try done.
  apply Qlt_alt in E. exfalso. by eapply Qlt_not_le.
Qed.

Lemma latency_nonneg (a b : Z) (r : Q) :
  (0 ≤ a ≤ b)%Z → (0 <= r)%Q →
  (0 <= (inject_Z a + (inject_Z b - inject_Z a) * r) / inject_Z 1000)%Q.
Proof.
  intros Hab Hr. unfold Qdiv. apply Qmult_le_0_compat; [|done].
  assert (0 <= (inject_Z b - inject_Z a) * r)%Q as Hm.
  { apply Qmult_le_0_compat; [|done].
    unfold Qle, Qminus, Qplus, Qopp, inject_Z. simpl. lia. }
  assert (0 <= inject_Z a)%Q as Ha.
  { unfold Qle, inject_Z. simpl. lia. }
  pose proof (Qplus_le_compat _ _ _ _ Ha Hm) as H. exact H.
Qed.

(** The simulated latency always sleeps: one draw, one non-negative
    duration. *)
Lemma uniform_sleep_returns (a b : Z) (w : World) :
  (0 ≤ a ≤ b)%Z →
  ∃ secs,
    (let '(u, w) := uniform (inject_Z a) (inject_Z b) w in
     time_sleep (u / inject_Z 1000)%Q w) =
    (Return (), mkWorld (rng w) (S (draws w)) (slept w ++ [secs]) (stdout w)).
Proof.
  intros Hab. unfold uniform.
  pose proof (random_nonneg w) as Hr. destruct (random w) as [r w1] eqn:Hrw.
  simpl in Hr. eexists. rewrite time_sleep_returns by (by apply latency_nonneg).
  unfold random in Hrw. by injection Hrw as <- <-.
Qed.

End World_facts.

(** ** Ordered dictionaries *)
Section OrderedDict_facts.
Import OrderedDict.

Lemma contains_spec k c : contains k c = true ↔ k ∈ keys c.
Proof. unfold contains. apply bool_decide_eq_true. Qed.

Lemma get_Some_iff k c : is_Some (get k c) ↔ k ∈ keys c.
Proof.
  unfold keys. induction c as [|[k' v'] c IH]; simpl.
  - split; [by intros [? ?] | by intros ?%elem_of_nil].
  - case_decide as Hk.
    + subst. split; [intros _; apply elem_of_cons; by left | by eauto].
    + rewrite IH, elem_of_cons. simpl. split; [by right|].
      intros [?|?]; [congruence|done].
Qed.

Lemma keys_remove k c : keys (remove k c) = filter (fun x => x ≠ k) (keys c).
Proof.
  unfold keys, remove. induction c as [|[k' v'] c IH]; [done|].
  rewrite fmap_cons, (filter_cons _ (k', v')), (filter_cons _ (k', v').1).
  simpl. case_decide; [|done]. rewrite fmap_cons. simpl. by f_equal.
Qed.

Lemma set_fresh k v c : k ∉ keys c → set k v c = c ++ [(k, v)].
Proof.
  unfold keys. induction c as [|[k' v'] c IH]; [done|]. simpl.
  intros Hk. apply not_elem_of_cons in Hk as [Hne Hk].
  case_decide; [congruence|]. by rewrite IH.
Qed.

Lemma get_app_fresh k v c : k ∉ keys c → get k (c ++ [(k, v)]) = Some v.
Proof.
  unfold keys. induction c as [|[k' v'] c IH]; simpl.
  - intros _. by case_decide.
  - intros Hk. apply not_elem_of_cons in Hk as [Hne Hk].
    case_decide; [congruence|]. by apply IH.
Qed.

Lemma keys_remove_notin k c : k ∉ keys (remove k c).
Proof.
  rewrite keys_remove. intros H. by apply list_elem_of_filter in H as [? _].
Qed.

(** [move_to_end] keeps the value of the key it moves. *)
Lemma move_to_end_spec k c :
  k ∈ keys c →
  ∃ v, get k c = Some v ∧ move_to_end k c = Some (remove k c ++ [(k, v)]) ∧
       get k (remove k c ++ [(k, v)]) = Some v ∧
       keys (remove k c ++ [(k, v)]) = filter (fun x => x ≠ k) (keys c) ++ [k].
Proof.
  intros Hk. apply get_Some_iff in Hk as [v Hv]. exists v.
  unfold move_to_end. rewrite Hv. repeat split.
  - apply get_app_fresh, keys_remove_notin.
  - unfold keys at 1. rewrite fmap_app. fold (keys (remove k c)).
    by rewrite keys_remove.
Qed.

End OrderedDict_facts.

(** ** Recency lists *)
Section LRU_facts.
Import LRU.



Lemma last_n_length {A} n (l : list A) : length (last_n n l) = min n (length l).
Proof. unfold last_n. rewrite length_drop. lia. Qed.

Lemma last_n_short {A} n (l : list A) : length l ≤ n → last_n n l = l.
Proof. intros H. unfold last_n. by replace (length l - n) with 0 by lia. Qed.

Lemma last_n_app_exact {A} n (pre X : list A) :
  length X = n → last_n n (pre ++ X) = X.
Proof.
  intros H. unfold last_n. rewrite length_app.
  replace (length pre + length X - n) with (length pre) by lia.
  apply drop_app_length.
Qed.

Lemma last_n_split {A} n (l : list A) :
  l = take (length l - n) l ++ last_n n l.
Proof. unfold last_n. by rewrite take_drop. Qed.


Lemma touch_NoDup k l : NoDup l → NoDup (touch k l).
Proof.
  intros Hnd. unfold touch. apply NoDup_app. split; [by apply NoDup_filter|].
  split; [|apply NoDup_singleton].
  intros x Hx Hx'. apply list_elem_of_filter in Hx as [Hne _].
  apply list_elem_of_singleton in Hx'. done.
Qed.

Lemma recency_snoc ts k : recency (ts ++ [k]) = touch k (recency ts).
Proof. unfold recency. by rewrite foldl_app. Qed.


(** The recency list holds each touched block once. *)
Lemma recency_elem_of ts x : x ∈ recency ts ↔ x ∈ ts.
Proof.
  induction ts as [|k ts IH] using rev_ind; [done|].
  rewrite recency_snoc. unfold touch.
  rewrite !elem_of_app, list_elem_of_filter, !list_elem_of_singleton, IH.
  destruct (decide (x = k)); tauto.
Qed.


Lemma lru_touch_last cs k ks : last (lru_touch cs k ks) = Some k.
Proof. unfold lru_touch. repeat case_match; apply last_snoc. Qed.



Lemma last_n_cases {A} n (l : list A) :
  (take (length l - n) l = [] ∧ length (last_n n l) < n) ∨
  length (last_n n l) = n.
Proof.
  rewrite last_n_length. destruct (decide (length l < n)) as [Hlt|Hge].
  - left. split; [|lia]. by replace (length l - n) with 0 by lia.
  - right. lia.
Qed.


End LRU_facts.

(** ** The internal block device *)
Section InternalMemoryDevice_facts.
Import InternalMemoryDevice.
Import LRU.
Local Open Scope Z_scope.

Lemma simulate_latency_returns self w :
  ∃ secs, simulate_latency self w =
    (Return (), mkWorld (rng w) (S (draws w)) (slept w ++ [secs]) (stdout w)).
Proof. unfold simulate_latency. apply uniform_sleep_returns. lia. Qed.

(** [_update_cache] on a cache of positive capacity: it returns, only the
    cache changes, the keys move as strict LRU prescribes, and a key that
    was cached keeps the payload it had. *)
Lemma _update_cache_spec self block_num data w :
  0 < cache_size self →
  ∃ c log,
    _update_cache self block_num data w =
      (Return (), set_cache c self,
       mkWorld (rng w) (draws w) (slept w) (stdout w ++ log)) ∧
    (log = [] ∨ ∃ e, log = [CACHE_EVICT (name self) e]) ∧
    OrderedDict.keys c =
      lru_touch (cache_size self) block_num (OrderedDict.keys (cache self)) ∧
    OrderedDict.get block_num c =
      (if OrderedDict.contains block_num (cache self)
       then OrderedDict.get block_num (cache self) else Some data).
Proof.
  intros Hcs. unfold _update_cache, lru_touch.
  destruct (OrderedDict.contains block_num (cache self)) eqn:Hin.
  - apply contains_spec in Hin as Hin'.
    destruct (move_to_end_spec _ _ Hin') as (v & Hget & -> & Hget' & Hkeys).
    rewrite bool_decide_eq_true_2 by done.
    eexists _, []. rewrite app_nil_r. destruct w. simpl.
    split; [done|]. split; [by left|]. split; [done|]. by rewrite Hget.
  - assert (block_num ∉ OrderedDict.keys (cache self)) as Hnot.
    { intros H. apply contains_spec in H. congruence. }
    rewrite bool_decide_eq_false_2 by done.
    replace (length (OrderedDict.keys (cache self))) with (length (cache self))
      by (unfold OrderedDict.keys; by rewrite length_fmap).
    case_decide as Hfull.
    + destruct (cache self) as [|[k0 v0] c'] eqn:Hc; [simpl in Hfull; lia|].
      simpl. apply not_elem_of_cons in Hnot as [_ Hnot].
      eexists _, [_]. split; [done|]. split; [right; by eexists|].
      rewrite set_fresh by done. split.
      * unfold OrderedDict.keys. by rewrite fmap_app.
      * by apply get_app_fresh.
    + eexists _, []. rewrite app_nil_r. destruct w. simpl.
      split; [done|]. split; [by left|]. rewrite set_fresh by done. split.
      * unfold OrderedDict.keys. by rewrite fmap_app.
      * by apply get_app_fresh.
Qed.

(** With a capacity of zero or less the first insertion pops from an empty
    dictionary. *)
Lemma update_cache_zero_capacity_raises self block_num data w :
  cache_size self ≤ 0 → cache self = [] →
  _update_cache self block_num data w = (Raise Py.KeyError, self, w).
Proof.
  intros Hcs Hc. unfold _update_cache. rewrite Hc. simpl.
  case_decide; [done|lia].
Qed.

Lemma internal_init_wf name capacity block_size cache_size w self w' :
  __init__ name capacity block_size cache_size w = (Return self, w') →
  blocks_wf self ∧ cache self = [] ∧
  InternalMemoryDevice.cache_size self = cache_size.
Proof.
  unfold __init__. case_decide; [done|]. intros [= <- <-].
  unfold blocks_wf, Py.list_repeat. simpl. by rewrite !length_replicate.
Qed.

(** [write_block], branch by branch. *)
Lemma write_block_spec self block_num data w :
  0 < cache_size self →
  ∃ secs,
    let w1 := mkWorld (rng w) (S (draws w)) (slept w ++ [secs]) (stdout w) in
    let w2 := mkWorld (rng w) (S (S (draws w))) (slept w ++ [secs]) (stdout w) in
    if decide (total_blocks self ≤ block_num) then
      write_block self block_num data w =
        (Return false, self, print (ERROR_out_of_range (name self) block_num) w1)
    else if (simulate_failure self w1).1 then
      write_block self block_num data w =
        (Return false, self, print (FAILURE_write (name self) block_num) w2)
    else
      match Py.norm_index (length (storage self)) block_num,
            Py.norm_index (length (block_state self)) block_num with
      | Some i, Some j =>
          ∃ c log,
            write_block self block_num data w =
              (Return true,
               set_cache c
                 (set_block_state (<[j:=used]> (block_state self))
                    (set_storage
                       (<[i:=Py.slice_to data (block_size self)]> (storage self))
                       self)),
               mkWorld (rng w) (S (S (draws w))) (slept w ++ [secs])
                 (stdout w ++ log ++
                  [WRITE_block (name self) block_num (Py.slice_to data 30)])) ∧
            (log = [] ∨ ∃ e, log = [CACHE_EVICT (name self) e]) ∧
            OrderedDict.keys c =
              lru_touch (cache_size self) block_num (OrderedDict.keys (cache self)) ∧
            OrderedDict.get block_num c =
              (if OrderedDict.contains block_num (cache self)
               then OrderedDict.get block_num (cache self)
               else Some (Py.slice_to data (block_size self)))
      | _, _ =>
          ∃ self', write_block self block_num data w = (Raise Py.IndexError, self', w2) ∧
                   cache self' = cache self ∧ cache_size self' = cache_size self
      end.
Proof.
  intros Hcs. unfold write_block.
  destruct (simulate_latency_returns self w) as [secs ->]. exists secs.
  cbv zeta. case_decide; [done|].
  unfold simulate_failure, random. cbn [fst snd rng draws slept stdout].
  destruct (Qltb _ _); [done|].
  unfold Py.setitem.
  destruct (Py.norm_index (length (storage self)) block_num) as [i|];
    [|by eexists].
  cbn [block_state set_storage].
  destruct (Py.norm_index (length (block_state self)) block_num) as [j|];
    [|by eexists].
  match goal with |- context [_update_cache ?s ?b ?d ?w'] =>
    destruct (_update_cache_spec s b d w' Hcs) as (c & log & -> & Ht & Hk & Hg)
  end.
  exists c, log. split; [|done].
  unfold print. cbn. by rewrite <- (assoc_L (++)).
Qed.

(** [read_block], branch by branch. *)
Lemma read_block_spec self block_num w :
  0 < cache_size self →
  ∃ secs,
    let w1 := mkWorld (rng w) (S (draws w)) (slept w ++ [secs]) (stdout w) in
    let w2 := mkWorld (rng w) (S (S (draws w))) (slept w ++ [secs]) (stdout w) in
    if decide (total_blocks self ≤ block_num) then
      read_block self block_num w =
        (Return "", self, print (ERROR_out_of_range (name self) block_num) w1)
    else if (simulate_failure self w1).1 then
      read_block self block_num w =
        (Return "[BLOCK READ FAILURE]", self,
         print (FAILURE_read (name self) block_num) w2)
    else if OrderedDict.contains block_num (cache self) then
      ∃ data c,
        OrderedDict.get block_num (cache self) = Some data ∧
        read_block self block_num w =
          (Return data, set_cache c self,
           print (CACHE_HIT (name self) block_num (Py.slice_to data 30)) w2) ∧
        OrderedDict.keys c =
          lru_touch (cache_size self) block_num (OrderedDict.keys (cache self)) ∧
        OrderedDict.get block_num c = Some data
    else
      match Py.getitem (storage self) block_num with
      | Some data =>
          ∃ c log,
            read_block self block_num w =
              (Return data, set_cache c self,
               mkWorld (rng w) (S (S (draws w))) (slept w ++ [secs])
                 (stdout w ++ log ++
                  [READ_block (name self) block_num (Py.slice_to data 30)])) ∧
            (log = [] ∨ ∃ e, log = [CACHE_EVICT (name self) e]) ∧
            OrderedDict.keys c =
              lru_touch (cache_size self) block_num (OrderedDict.keys (cache self)) ∧
            OrderedDict.get block_num c = Some data
      | None => read_block self block_num w = (Raise Py.IndexError, self, w2)
      end.
Proof.
  intros Hcs. unfold read_block.
  destruct (simulate_latency_returns self w) as [secs ->]. exists secs.
  cbv zeta. case_decide; [done|].
  unfold simulate_failure, random. cbn [fst snd rng draws slept stdout].
  destruct (Qltb _ _); [done|].
  destruct (OrderedDict.contains block_num (cache self)) eqn:Hin.
  - apply contains_spec in Hin as Hin'.
    destruct (move_to_end_spec _ _ Hin') as (v & Hget & Hmv & Hget' & Hkeys).
    rewrite Hget, Hmv. eexists v, _. split; [done|]. split; [done|].
    split; [|done]. unfold lru_touch. by rewrite bool_decide_eq_true_2.
  - destruct (Py.getitem (storage self) block_num) as [data|]; [|done].
    destruct (_update_cache_spec self block_num data
                (mkWorld (rng w) (S (S (draws w))) (slept w ++ [secs]) (stdout w))
                Hcs) as (c & log & -> & Ht & Hk & Hg).
    exists c, log. rewrite Hin in Hg. split; [|done].
    unfold print. cbn. by rewrite <- (assoc_L (++)).
Qed.

(** A successful [write_block] stores the truncated payload and marks the
    slot; in the cache the block goes to the most-recently-used end, with
    the truncated payload if it was not cached, but with the payload it
    already had if it was. *)
Lemma write_block_success self block_num data w self' w' :
  0 < cache_size self →
  write_block self block_num data w = (Return true, self', w') →
  Py.getitem (storage self') block_num = Some (Py.slice_to data (block_size self)) ∧
  Py.getitem (block_state self') block_num = Some used ∧
  last (OrderedDict.keys (cache self')) = Some block_num ∧
  OrderedDict.get block_num (cache self') =
    (if OrderedDict.contains block_num (cache self)
     then OrderedDict.get block_num (cache self)
     else Some (Py.slice_to data (block_size self))).
Proof.
  intros Hcs Hw.
  destruct (write_block_spec self block_num data w Hcs) as [secs H].
  cbv zeta in H. rewrite Hw in H.
  case_decide; [done|]. destruct (simulate_failure _ _).1; [done|].
  destruct (Py.norm_index (length (storage self)) block_num) as [i|] eqn:Hi;
    [destruct (Py.norm_index (length (block_state self)) block_num) as [j|] eqn:Hj|].
  - destruct H as (c & log & [= -> ->] & _ & Hk & Hg).
    cbn [storage block_state cache set_cache set_storage set_block_state].
    split; [apply (getitem_setitem (storage self)); unfold Py.setitem; by rewrite Hi|].
    split; [apply (getitem_setitem (block_state self)); unfold Py.setitem; by rewrite Hj|].
    split; [rewrite Hk; apply lru_touch_last | done].
  - by destruct H as (? & ? & _).
  - by destruct H as (? & ? & _).
Qed.

(** A read that follows a successful write (no simulated fault) is a cache
    hit; it returns the truncated payload just written when the block was
    not cached before the write. *)
Lemma write_then_read self block_num data w self' w' :
  0 < cache_size self →
  write_block self block_num data w = (Return true, self', w') →
  Qltb (draw_at w' (S (draws w'))) (failure_chance self') = false →
  ∃ payload self'' w'',
    read_block self' block_num w' = (Return payload, self'', w'') ∧
    storage self'' = storage self' ∧
    last (stdout w'') =
      Some (CACHE_HIT (name self') block_num (Py.slice_to payload 30)) ∧
    (OrderedDict.contains block_num (cache self) = false →
     payload = Py.slice_to data (block_size self)).
Proof.
  intros Hcs Hw Hok.
  destruct (write_block_success _ _ _ _ _ _ Hcs Hw) as (_ & _ & Hlast & Hget).
  assert (cache_size self' = cache_size self ∧
          ¬ total_blocks self' ≤ block_num) as [Hcs' Hrange].
  { destruct (write_block_spec self block_num data w Hcs) as [secs H].
    cbv zeta in H. rewrite Hw in H.
    case_decide; [done|]. destruct (simulate_failure _ _).1; [done|].
    destruct (Py.norm_index (length (storage self)) block_num) as [i|];
      [destruct (Py.norm_index (length (block_state self)) block_num) as [j|]|].
    - destruct H as (c & log & [= -> ->] & _). by split.
    - by destruct H as (? & ? & _).
    - by destruct H as (? & ? & _). }
  assert (0 < cache_size self') as Hcs'' by lia.
  destruct (read_block_spec self' block_num w' Hcs'') as [secs H].
  cbv zeta in H. rewrite decide_False in H by done.
  unfold simulate_failure, random, draw_at in H, Hok.
  cbn [fst snd rng draws] in H. rewrite Hok in H.
  assert (OrderedDict.contains block_num (cache self') = true) as Hin.
  { apply contains_spec. apply last_Some in Hlast as [l' ->].
    apply elem_of_app. right. by apply list_elem_of_singleton. }
  rewrite Hin in H. destruct H as (payload & c & Hget' & -> & _).
  exists payload. do 2 eexists. split; [done|]. split; [done|].
  split; [unfold print; cbn; apply last_snoc|].
  intros Hfresh. rewrite Hfresh in Hget. congruence.
Qed.

(** C1 (the code at a failing input): on a device with the default
    geometry and no simulated fault, block 0 is written with "old" and then
    with "new".  Both writes succeed and the slot holds "new", but the cache
    still maps block 0 to "old", and the read that follows returns "old"
    from the cache. *)
Theorem C1_rewrite_leaves_stale_cache :
  let w := mkWorld (fun _ => (2 ^ 52)%N) 0 [] [] in
  match __init__ "SSD Interno" 4096 256 4 w with
  | (Return self0, w0) =>
      let '(r1, self1, w1) := write_block self0 0 "old" w0 in
      let '(r2, self2, w2) := write_block self1 0 "new" w1 in
      let '(r3, self3, w3) := read_block self2 0 w2 in
      r1 = Return true ∧
      r2 = Return true ∧
      Py.getitem (storage self2) 0 = Some "new" ∧
      Py.getitem (block_state self2) 0 = Some used ∧
      OrderedDict.get 0 (cache self2) = Some "old" ∧
      r3 = Return "old" ∧
      stdout w3 = stdout w2 ++ [CACHE_HIT "SSD Interno" 0 "old"]
  | _ => False
  end.
Proof.
  vm_compute. repeat split.
Qed.





End InternalMemoryDevice_facts.

(** ** The removable block device *)
Section RemovableMemoryDevice_facts.
Import RemovableMemoryDevice.
Local Open Scope Z_scope.

Lemma removable_latency_returns self w :
  ∃ secs, simulate_latency self w =
    (Return (), mkWorld (rng w) (S (draws w)) (slept w ++ [secs]) (stdout w)).
Proof. unfold simulate_latency. apply uniform_sleep_returns. lia. Qed.

Lemma removable_init_wf name capacity block_size self :
  __init__ name capacity block_size = Return self →
  blocks_wf self ∧ inserted self = true.
Proof.
  unfold __init__. case_decide; [done|]. intros [= <-].
  unfold blocks_wf, Py.list_repeat. simpl. by rewrite !length_replicate.
Qed.

(** C7: while the device is not inserted, [write_block] and [read_block]
    report it and return at once: the device (storage and block states
    included) is unchanged, no random number is drawn and nothing is slept.
    In particular [read_block(0)] after [eject()] reports the missing device
    and leaves the storage as it was before the ejection. *)
Theorem C7_not_inserted_fails_fast (self : RemovableMemoryDevice.t)
    (block_num : Z) (data : string) (w : World) :
  inserted self = false →
  write_block self block_num data w =
    (Return false, self, print (ERROR_not_inserted (name self)) w) ∧
  read_block self block_num w =
    (Return "", self, print (ERROR_not_inserted (name self)) w) ∧
  draws (print (ERROR_not_inserted (name self)) w) = draws w ∧
  slept (print (ERROR_not_inserted (name self)) w) = slept w ∧
  ∀ (self0 : RemovableMemoryDevice.t) (w0 : World),
    let '(self1, w1) := eject self0 w0 in
    let '(r, self2, w2) := read_block self1 0 w1 in
    r = Return "" ∧
    stdout w2 = stdout w0 ++ [REMOVABLE_removed (name self0);
                              ERROR_not_inserted (name self0)] ∧
    storage self2 = storage self0 ∧ block_state self2 = block_state self0 ∧
    draws w2 = draws w0 ∧ slept w2 = slept w0.
Proof.
  intros Hout. unfold write_block, read_block. rewrite Hout. cbn [negb].
  repeat split; try done.
  cbn. by rewrite <- (assoc_L (++)).
Qed.

Lemma C7_not_inserted_fails_fast_witness :
  let self := mk "USB Stick" false "" 1024 128 8 (Py.list_repeat "" 8) false
                 (Py.list_repeat free 8) (Qmake 3 100) in
  let w := mkWorld (fun _ => 0%N) 0 [] [] in
  write_block self 3 "payload" w =
    (Return false, self, print (ERROR_not_inserted (name self)) w) ∧
  read_block self 3 w =
    (Return "", self, print (ERROR_not_inserted (name self)) w) ∧
  draws (print (ERROR_not_inserted (name self)) w) = draws w ∧
  slept (print (ERROR_not_inserted (name self)) w) = slept w ∧
  ∀ (self0 : RemovableMemoryDevice.t) (w0 : World),
    let '(self1, w1) := eject self0 w0 in
    let '(r, self2, w2) := read_block self1 0 w1 in
    r = Return "" ∧
    stdout w2 = stdout w0 ++ [REMOVABLE_removed (name self0);
                              ERROR_not_inserted (name self0)] ∧
    storage self2 = storage self0 ∧ block_state self2 = block_state self0 ∧
    draws w2 = draws w0 ∧ slept w2 = slept w0.
Proof.
  apply (C7_not_inserted_fails_fast
           (mk "USB Stick" false "" 1024 128 8 (Py.list_repeat "" 8) false
               (Py.list_repeat free 8) (Qmake 3 100))
           3 "payload" (mkWorld (fun _ => 0%N) 0 [] [])).
  reflexivity.
Defined.

End RemovableMemoryDevice_facts.

(** ** Negative block numbers *)
Section Negative_indices.
Local Open Scope Z_scope.








End Negative_indices.

(** ** The bus-attached USB driver *)
Section Driver_USB_facts.
Import Driver_USB.






End Driver_USB_facts.

(** * Further properties *)

(** ** The accountant beyond its contract *)
Section RAMManager_more.
Import DeviceDriverSimulator.
Import RAMManager.
Local Open Scope Z_scope.

(** X1: a granted allocation followed by a release of the same amount gives
    back the accountant as it was. *)
Theorem X1_allocate_free_roundtrip (self self1 : RAMManager.t) (amount : Z)
    (w w1 : World) :
  0 ≤ used self →
  allocate self amount w = (true, self1, w1) →
  (free self1 amount w1).1 = self.
Proof.
  intros Hused. unfold allocate. case_decide; [done|].
  intros [= <- <-]. unfold free. destruct self as [sz u]. simpl in *.
  f_equal. lia.
Qed.

Lemma X1_allocate_free_roundtrip_witness :
  (free (mk 1024 300) 200 (print (RAM_allocated 200 300 1024)
                             (mkWorld (fun _ => 0%N) 0 [] []))).1 = mk 1024 100.
Proof.
  apply (X1_allocate_free_roundtrip (mk 1024 100) (mk 1024 300) 200
           (mkWorld (fun _ => 0%N) 0 [] [])).
  - simpl. lia.
  - reflexivity.
Defined.

(** X2: [allocate] does not reject a negative amount: within capacity it is
    always granted and lowers [used], below zero when the amount exceeds
    what is in use. *)
Theorem X2_allocate_negative_amount (self : RAMManager.t) (amount : Z) (w : World) :
  amount < 0 → used self ≤ size self →
  let '(ok, self', _) := allocate self amount w in
  ok = true ∧ used self' = used self + amount ∧
  (used self < - amount → used self' < 0).
Proof.
  intros Hneg Hle. unfold allocate. case_decide; [lia|]. simpl.
  repeat split; lia.
Qed.

Lemma X2_allocate_negative_amount_witness :
  let '(ok, self', _) :=
    allocate (mk 1024 10) (- 50) (mkWorld (fun _ => 0%N) 0 [] []) in
  ok = true ∧ used self' = 10 + - 50 ∧ (10 < - - 50 → used self' < 0).
Proof.
  apply (X2_allocate_negative_amount (mk 1024 10) (- 50)
           (mkWorld (fun _ => 0%N) 0 [] [])); simpl; lia.
Defined.

End RAMManager_more.

(** ** The simulator as a whole *)
Section DeviceDriverSimulator_more.
Import DeviceDriverSimulator.
Local Open Scope Z_scope.

(** Closes [m ∉ log] for a log given by its messages. *)
Local Ltac absent_from_log :=
  let Hin := fresh "Hin" in
  intros Hin;
  repeat first
    [ apply elem_of_app in Hin as [Hin|Hin]
    | apply elem_of_cons in Hin as [Hin|Hin]
    | apply elem_of_nil in Hin ];
  done.

Lemma init_devices_idle ram_size buffer_size queue_size w self w' :
  __init__ ram_size buffer_size queue_size w = (Return self, w') →
  devices_idle self ∧ RAMManager.used (ram self) = 0.
Proof.
  unfold __init__. case_decide; [done|]. intros [= <- <-].
  split; [by eexists _, _|done].
Qed.

Lemma enqueue_io_log self device_id operation data w :
  let '(_, self', w') := enqueue_io self device_id operation data w in
  devices self' = devices self ∧ ram self' = ram self ∧
  ∃ log, stdout w' = stdout w ++ log ∧ ∀ n, BLOCKED_busy n ∉ log.
Proof.
  unfold enqueue_io. case_decide.
  - split; [done|]. split; [done|]. eexists [_]. split; [done|].
    intros n. absent_from_log.
  - cbn [devices set_io_queue]. destruct (Py.getitem _ _).
    + split; [done|]. split; [done|]. eexists [_]. split; [done|].
      intros n. absent_from_log.
    + split; [done|]. split; [done|]. exists []. rewrite app_nil_r.
      split; [done|]. intros n. absent_from_log.
Qed.

(** With every device idle, [handle_io] never takes the busy branch. *)
Lemma handle_io_idle self w :
  devices_idle self →
  let '(_, self', w') := handle_io self w in
  devices_idle self' ∧
  ∃ log, stdout w' = stdout w ++ log ∧ ∀ n, BLOCKED_busy n ∉ log.
Proof.
  intros (b1 & b2 & Hdev). unfold handle_io.
  destruct (Py.items (io_queue self)) as [|req rest].
  { split; [by eexists _, _|]. eexists [_]. split; [done|].
    intros n. absent_from_log. }
  cbn [devices set_io_queue]. rewrite Hdev.
  destruct (Py.norm_index _ _) as [[|[|[|i]]]|]; cbn [lookup list_lookup].
  - split; [by eexists _, _|]. exists []. rewrite app_nil_r. split; [done|].
    intros n. absent_from_log.
  - cbn [busy]. unfold _device_driver, _interrupt_handler,
      RAMManager.allocate, RAMManager.free, set_device, set_ram, print.
    cbn [devices ram BUFFER_SIZE name busy buffer set_io_queue].
    repeat case_decide; cbn; rewrite Hdev; cbn;
      (split; [by eexists _, _|]);
      rewrite <- ?(assoc_L (++)); (eexists; split; [reflexivity|]);
      intros n; absent_from_log.
  - cbn [busy]. unfold _device_driver, _interrupt_handler,
      RAMManager.allocate, RAMManager.free, set_device, set_ram, print.
    cbn [devices ram BUFFER_SIZE name busy buffer set_io_queue].
    repeat case_decide; cbn; rewrite Hdev; cbn;
      (split; [by eexists _, _|]);
      rewrite <- ?(assoc_L (++)); (eexists; split; [reflexivity|]);
      intros n; absent_from_log.
  - split; [by eexists _, _|]. exists []. rewrite app_nil_r. split; [done|].
    intros n. absent_from_log.
  - split; [by eexists _, _|]. exists []. rewrite app_nil_r. split; [done|].
    intros n. absent_from_log.
Qed.

Lemma step_idle c self w :
  devices_idle self → RAMManager.used (ram self) = 0 →
  let '(self', w') := step c (self, w) in
  devices_idle self' ∧ RAMManager.used (ram self') = 0 ∧
  ∃ log, stdout w' = stdout w ++ log ∧ ∀ n, BLOCKED_busy n ∉ log.
Proof.
  intros Hidle Hused. destruct c as [d o x|]; cbn [step fst snd].
  - pose proof (enqueue_io_log self d o x w) as H.
    destruct (enqueue_io self d o x w) as [[r self'] w'].
    destruct H as (Hd & Hr & Hlog). unfold devices_idle. rewrite Hd, Hr. done.
  - pose proof (handle_io_idle self w Hidle) as H.
    pose proof (handle_io_used_zero self w Hused) as Hu.
    destruct (handle_io self w) as [[r self'] w']. simpl in Hu.
    destruct H as [Hi Hlog]. done.
Qed.

(** X3: in a simulator built by the constructor and driven by any sequence
    of [enqueue_io] and [handle_io] calls, every device is idle and nothing
    is accounted for between two calls, so the busy branch of [handle_io] is
    never taken: no request is ever reported as blocked. *)
Theorem X3_simulator_stays_idle (ram_size buffer_size queue_size : Z)
    (w0 w0' : World) (self0 : DeviceDriverSimulator.t)
    (cs : list DeviceDriverSimulator.call) :
  __init__ ram_size buffer_size queue_size w0 = (Return self0, w0') →
  let '(self, w) := run_calls cs (self0, w0') in
  devices_idle self ∧ RAMManager.used (ram self) = 0 ∧
  ∃ log, stdout w = stdout w0' ++ log ∧ ∀ n, BLOCKED_busy n ∉ log.
Proof.
  intros Hinit. destruct (init_devices_idle _ _ _ _ _ _ Hinit) as [Hidle Hused].
  clear Hinit. revert self0 w0' Hidle Hused.
  induction cs as [|c cs IH]; intros self w Hidle Hused.
  - simpl. split; [done|]. split; [done|]. exists []. rewrite app_nil_r.
    split; [done|]. intros n. absent_from_log.
  - cbn [run_calls foldl]. fold (run_calls cs (step c (self, w))).
    pose proof (step_idle c self w Hidle Hused) as Hstep.
    destruct (step c (self, w)) as [self1 w1].
    destruct Hstep as (Hidle1 & Hused1 & log1 & Hout1 & Hlog1).
    specialize (IH self1 w1 Hidle1 Hused1).
    destruct (run_calls cs (self1, w1)) as [self' w'].
    destruct IH as (Hidle' & Hused' & log2 & Hout2 & Hlog2).
    split; [done|]. split; [done|]. exists (log1 ++ log2).
    split; [by rewrite Hout2, Hout1, (assoc_L (++))|].
    intros n Hin. apply elem_of_app in Hin as [Hin|Hin];
      [by apply (Hlog1 n) | by apply (Hlog2 n)].
Qed.

Lemma X3_simulator_stays_idle_witness :
  let w0 := mkWorld (fun _ => 0%N) 0 [] [] in
  let cs := [Enqueue_io 1 "write" "a"; Enqueue_io 2 "read" ""; Handle_io;
             Enqueue_io 2 "erase" ""; Handle_io; Handle_io; Handle_io] in
  let self0 := mk 128 10
      [ InternalObj "SSD";
        IsDevice (mkDevice "USB Stick" false (BufStr ""));
        IsDevice (mkDevice "Keyboard" false (BufDeque [])) ]
      (Py.Deque 10 []) (RAMManager.__init__ 4) in
  let '(self, w) := run_calls cs (self0, print (INIT_blocks "SSD" 8) w0) in
  devices_idle self ∧ RAMManager.used (ram self) = 0 ∧
  ∃ log, stdout w = stdout (print (INIT_blocks "SSD" 8) w0) ++ log ∧
         ∀ n, BLOCKED_busy n ∉ log.
Proof.
  exact (X3_simulator_stays_idle 4 128 10 (mkWorld (fun _ => 0%N) 0 [] []) _ _
           [Enqueue_io 1 "write" "a"; Enqueue_io 2 "read" ""; Handle_io;
            Enqueue_io 2 "erase" ""; Handle_io; Handle_io; Handle_io]
           eq_refl).
Defined.

(** [handle_io] only prints. *)
Lemma handle_io_slept self w :
  slept (handle_io self w).2 = slept w.
Proof.
  unfold handle_io.
  destruct (Py.items (io_queue self)) as [|req rest]; [done|].
  destruct (Py.norm_index _ _) as [i|]; [|done].
  destruct (devices _ !! i) as [[n|dev]|]; [done| |done].
  destruct (busy dev).
  - unfold enqueue_io. case_decide; [done|]. by destruct (Py.getitem _ _).
  - unfold _device_driver, _interrupt_handler, RAMManager.allocate,
      RAMManager.free.
    repeat case_decide; done.
Qed.

(** The device a request with one of these identifiers addresses. *)
Lemma device_ids_of_devices (self : DeviceDriverSimulator.t) (id : Z) :
  devices_idle self → id ∈ [1; 2; -1; -2] →
  ∃ i dev, Py.norm_index (length (devices self)) id = Some i ∧
           devices self !! i = Some (IsDevice dev) ∧ busy dev = false.
Proof.
  intros (b1 & b2 & ->) Hid.
  repeat (apply elem_of_cons in Hid as [->|Hid]);
    [ by eexists 1%nat, _ | by eexists 2%nat, _
    | by eexists 2%nat, _ | by eexists 1%nat, _
    | by apply elem_of_nil in Hid ].
Qed.

(** X4: with every device idle and a non-negative delay, [run] on a queue
    whose requests all address the removable device or the keyboard (device
    1 or 2, or -2 or -1) ends after one round for each request: the queue is
    empty, the devices are idle, the loop has slept [delay] once for each
    request, and an accountant that had nothing in use has nothing in use. *)
Theorem X4_run_serves_every_request (self : DeviceDriverSimulator.t)
    (delay : Q) (w : World) :
  devices_idle self → (0 <= delay)%Q →
  Forall (fun req => device_id req ∈ [1; 2; -1; -2]) (Py.items (io_queue self)) →
  ∃ self' w',
    run (S (length (Py.items (io_queue self)))) self delay w =
      Some (Return (), self', w') ∧
    Py.items (io_queue self') = [] ∧ devices_idle self' ∧
    slept w' = slept w ++ replicate (length (Py.items (io_queue self))) delay ∧
    (RAMManager.used (ram self) = 0 → RAMManager.used (ram self') = 0).
Proof.
  remember (length (Py.items (io_queue self))) as n eqn:Hlen.
  symmetry in Hlen. revert self w Hlen.
  induction n as [|n IH]; intros self w Hlen Hidle Hdelay Hall.
  - apply nil_length_inv in Hlen. cbn [run]. rewrite Hlen.
    exists self, w. rewrite app_nil_r. done.
  - destruct (Py.items (io_queue self)) as [|req rest] eqn:Hitems; [done|].
    inversion_clear Hall as [|? ? Hreq Hrest].
    destruct (device_ids_of_devices self _ Hidle Hreq) as (i & dev & Hi & Hdev & Hbusy).
    pose proof (handle_io_served self w req rest i dev Hitems Hi Hdev Hbusy) as Hs.
    pose proof (handle_io_idle self w Hidle) as Hid.
    pose proof (handle_io_slept self w) as Hsl.
    pose proof (handle_io_used_zero self w) as Hu.
    cbn [run]. rewrite Hitems.
    destruct (handle_io self w) as [[r self1] w1]. cbn [fst snd] in *.
    destruct Hs as (-> & _ & Hrest1 & _). destruct Hid as [Hidle1 _].
    rewrite (time_sleep_returns delay w1 Hdelay).
    destruct (IH self1 (mkWorld (rng w1) (draws w1) (slept w1 ++ [delay]) (stdout w1)))
      as (self' & w' & Hrun & Hq & Hidle' & Hslept & Hused);
      [rewrite Hrest1; simpl in Hlen; lia | done | done | by rewrite Hrest1 |].
    exists self', w'. split; [done|]. split; [done|]. split; [done|].
    split; [|tauto].
    rewrite Hslept. cbn [slept]. rewrite Hsl, <- (assoc_L (++)). done.
Qed.

Lemma X4_run_serves_every_request_witness :
  let self := mk 128 10
      [ InternalObj "SSD";
        IsDevice (mkDevice "USB Stick" false (BufStr ""));
        IsDevice (mkDevice "Keyboard" false (BufDeque [])) ]
      (Py.Deque 10 [mkIORequest 1 "write" "hello"; mkIORequest (-1) "read" "";
                    mkIORequest 2 "flush" ""])
      (RAMManager.__init__ 1024) in
  let w := mkWorld (fun _ => 0%N) 0 [] [] in
  ∃ self' w',
    run 4 self (inject_Z 1) w = Some (Return (), self', w') ∧
    Py.items (io_queue self') = [] ∧ devices_idle self' ∧
    slept w' = slept w ++ replicate 3 (inject_Z 1) ∧
    (RAMManager.used (ram self) = 0 → RAMManager.used (ram self') = 0).
Proof.
  apply (X4_run_serves_every_request
           (mk 128 10
              [ InternalObj "SSD";
                IsDevice (mkDevice "USB Stick" false (BufStr ""));
                IsDevice (mkDevice "Keyboard" false (BufDeque [])) ]
              (Py.Deque 10 [mkIORequest 1 "write" "hello"; mkIORequest (-1) "read" "";
                            mkIORequest 2 "flush" ""])
              (RAMManager.__init__ 1024))
           (inject_Z 1) (mkWorld (fun _ => 0%N) 0 [] [])).
  - by eexists _, _.
  - unfold Qle. simpl. lia.
  - repeat constructor; simpl; set_solver.
Defined.

(** X5: a request for the internal SSD (device 0, or -3) is never served:
    [handle_io] takes it off the queue and raises [AttributeError], since
    that object has no [busy] attribute; nothing is printed, devices and
    accountant are untouched, and [run] stops on the same exception with
    the later requests still queued. *)
Theorem X5_internal_device_request_is_lost (self : DeviceDriverSimulator.t)
    (w : World) (req : IORequest) (rest : list IORequest) :
  devices_idle self →
  Py.items (io_queue self) = req :: rest →
  device_id req = 0 ∨ device_id req = -3 →
  handle_io self w =
    (Raise Py.AttributeError,
     set_io_queue (Py.Deque (Py.maxlen (io_queue self)) rest) self, w) ∧
  ∀ fuel delay,
    run (S fuel) self delay w =
      Some (Raise Py.AttributeError,
            set_io_queue (Py.Deque (Py.maxlen (io_queue self)) rest) self, w).
Proof.
  intros (b1 & b2 & Hdev) Hitems Hid.
  assert (handle_io self w =
    (Raise Py.AttributeError,
     set_io_queue (Py.Deque (Py.maxlen (io_queue self)) rest) self, w)) as Hh.
  { unfold handle_io. rewrite Hitems. cbn [devices set_io_queue].
    rewrite Hdev. by destruct Hid as [-> | ->]. }
  split; [done|]. intros fuel delay. cbn [run]. by rewrite Hitems, Hh.
Qed.

Lemma X5_internal_device_request_is_lost_witness :
  let self := mk 128 10
      [ InternalObj "SSD";
        IsDevice (mkDevice "USB Stick" false (BufStr ""));
        IsDevice (mkDevice "Keyboard" false (BufDeque [])) ]
      (Py.Deque 10 [mkIORequest 0 "read" ""; mkIORequest 1 "write" "x"])
      (RAMManager.__init__ 1024) in
  let w := mkWorld (fun _ => 0%N) 0 [] [] in
  handle_io self w =
    (Raise Py.AttributeError,
     set_io_queue (Py.Deque 10 [mkIORequest 1 "write" "x"]) self, w) ∧
  ∀ fuel delay,
    run (S fuel) self delay w =
      Some (Raise Py.AttributeError,
            set_io_queue (Py.Deque 10 [mkIORequest 1 "write" "x"]) self, w).
Proof.
  apply (X5_internal_device_request_is_lost
           (mk 128 10
              [ InternalObj "SSD";
                IsDevice (mkDevice "USB Stick" false (BufStr ""));
                IsDevice (mkDevice "Keyboard" false (BufDeque [])) ]
              (Py.Deque 10 [mkIORequest 0 "read" ""; mkIORequest 1 "write" "x"])
              (RAMManager.__init__ 1024))
           (mkWorld (fun _ => 0%N) 0 [] [])
           (mkIORequest 0 "read" "") [mkIORequest 1 "write" "x"]).
  - by eexists _, _.
  - reflexivity.
  - by left.
Defined.

(** X6: [enqueue_io] does not validate the device identifier before it
    queues the request: with room in the queue and an identifier outside
    -3..2, the request is appended and then [IndexError] is raised by the
    lookup of the device name; when such a request reaches the head of the
    queue, [handle_io] removes it and raises [IndexError] as well. *)
Theorem X6_unknown_device_id (self : DeviceDriverSimulator.t) (w : World)
    (device_id : Z) (operation data : string) :
  devices_idle self → queue_wf self →
  ¬ (-3 ≤ device_id ≤ 2) →
  Z.of_nat (length (Py.items (io_queue self))) < IO_QUEUE_SIZE self →
  let req := mkIORequest device_id operation data in
  enqueue_io self device_id operation data w =
    (Raise Py.IndexError,
     set_io_queue (Py.Deque (Py.maxlen (io_queue self))
                            (Py.items (io_queue self) ++ [req])) self, w) ∧
  ∀ (self2 : DeviceDriverSimulator.t) w2 rest,
    devices_idle self2 → Py.items (io_queue self2) = req :: rest →
    handle_io self2 w2 =
      (Raise Py.IndexError,
       set_io_queue (Py.Deque (Py.maxlen (io_queue self2)) rest) self2, w2).
Proof.
  intros (b1 & b2 & Hdev) [Hmax Hlen] Hid Hroom req.
  assert (Py.norm_index 3 device_id = None) as Hnone.
  { unfold Py.norm_index. rewrite !decide_False by lia. done. }
  split.
  - unfold enqueue_io. rewrite decide_False by lia.
    unfold Py.deque_append. rewrite !decide_False by lia.
    unfold Py.getitem. cbn [devices set_io_queue]. rewrite Hdev.
    cbn [length]. by rewrite Hnone.
  - intros self2 w2 rest (c1 & c2 & Hdev2) Hitems2.
    unfold handle_io. rewrite Hitems2. cbn [devices set_io_queue].
    rewrite Hdev2. subst req. cbn [length DeviceDriverSimulator.device_id].
    by rewrite Hnone.
Qed.

Lemma X6_unknown_device_id_witness :
  let self := mk 128 10
      [ InternalObj "SSD";
        IsDevice (mkDevice "USB Stick" false (BufStr ""));
        IsDevice (mkDevice "Keyboard" false (BufDeque [])) ]
      (Py.Deque 10 [mkIORequest 1 "write" "x"])
      (RAMManager.__init__ 1024) in
  let w := mkWorld (fun _ => 0%N) 0 [] [] in
  enqueue_io self 7 "read" "" w =
    (Raise Py.IndexError,
     set_io_queue (Py.Deque 10 ([mkIORequest 1 "write" "x"] ++ [mkIORequest 7 "read" ""]))
                  self, w).
Proof.
  apply (X6_unknown_device_id
           (mk 128 10
              [ InternalObj "SSD";
                IsDevice (mkDevice "USB Stick" false (BufStr ""));
                IsDevice (mkDevice "Keyboard" false (BufDeque [])) ]
              (Py.Deque 10 [mkIORequest 1 "write" "x"])
              (RAMManager.__init__ 1024))
           (mkWorld (fun _ => 0%N) 0 [] []) 7 "read" "").
  - by eexists _, _.
  - unfold queue_wf. simpl. lia.
  - lia.
  - simpl. lia.
Defined.

End DeviceDriverSimulator_more.

(** ** The internal block device: frames and invariants *)
Section InternalMemoryDevice_more.
Import InternalMemoryDevice.
Local Open Scope Z_scope.

Lemma _update_cache_frame self block_num data w :
  ∃ c, (_update_cache self block_num data w).1.2 = set_cache c self.
Proof.
  unfold _update_cache. repeat case_match; simpl; try by eexists.
  exists (cache self). by destruct self.
  exists (cache self). by destruct self.
Qed.

(** X7: [read_block] is read-only on the backing store: whatever the block
    number, the draws and the outcome (exceptions included), the storage,
    the block states and the geometry of the device are what they were; only
    the cache can change. *)
Theorem X7_read_block_keeps_the_store (self : InternalMemoryDevice.t)
    (block_num : Z) (w : World) :
  let '(_, self', _) := read_block self block_num w in
  storage self' = storage self ∧ block_state self' = block_state self ∧
  geometry self' = geometry self.
Proof.
  unfold read_block.
  destruct (simulate_latency self w) as [[[]|e] w1]; [|done].
  case_decide; [done|].
  destruct (simulate_failure self w1) as [[] w2]; [done|].
  destruct (OrderedDict.contains block_num (cache self)).
  - destruct (OrderedDict.get block_num (cache self)); [|done].
    by destruct (OrderedDict.move_to_end block_num (cache self)).
  - destruct (Py.getitem (storage self) block_num) as [data|]; [|done].
    destruct (_update_cache_frame self block_num data w2) as [c Hc].
    destruct (_update_cache self block_num data w2) as [[[[]|e] self'] w3];
      simpl in Hc; by subst.
Qed.

(** X8: a rejected operation leaves the device as it was.  The latency is
    simulated before the range check, so an out-of-range block still costs
    one draw and one sleep before the error is printed; a simulated fault
    costs the latency and the failure draw and returns [False], or the text
    "[BLOCK READ FAILURE]" for a read. *)
Theorem X8_internal_rejections (self : InternalMemoryDevice.t) (block_num : Z)
    (data : string) (w : World) :
  ∃ secs,
    let w1 := mkWorld (rng w) (S (draws w)) (slept w ++ [secs]) (stdout w) in
    let w2 := mkWorld (rng w) (S (S (draws w))) (slept w ++ [secs]) (stdout w) in
    (total_blocks self ≤ block_num →
     write_block self block_num data w =
       (Return false, self, print (ERROR_out_of_range (name self) block_num) w1) ∧
     read_block self block_num w =
       (Return "", self, print (ERROR_out_of_range (name self) block_num) w1)) ∧
    (block_num < total_blocks self →
     Qltb (draw_at w (S (draws w))) (failure_chance self) = true →
     write_block self block_num data w =
       (Return false, self, print (FAILURE_write (name self) block_num) w2) ∧
     read_block self block_num w =
       (Return "[BLOCK READ FAILURE]", self,
        print (FAILURE_read (name self) block_num) w2)).
Proof.
  destruct (simulate_latency_returns self w) as [secs Hlat]. exists secs.
  cbv zeta. unfold write_block, read_block. rewrite Hlat. split.
  - intros Hge. by rewrite !decide_True by done.
  - intros Hlt Hfault. rewrite !decide_False by lia.
    unfold simulate_failure, random, draw_at in *.
    cbn [fst snd rng draws]. by rewrite Hfault.
Qed.

Lemma X8_internal_rejections_witness :
  let self := mk "SSD" 256 8 (Py.list_repeat "" 8) (Py.list_repeat free 8) [] 4
                 (Qmake 5 100) in
  let w := mkWorld (fun _ => 0%N) 0 [] [] in
  (∃ secs,
     write_block self 8 "abc" w =
       (Return false, self,
        print (ERROR_out_of_range "SSD" 8) (mkWorld (rng w) 1 [secs] []))) ∧
  (∃ secs,
     read_block self 3 w =
       (Return "[BLOCK READ FAILURE]", self,
        print (FAILURE_read "SSD" 3) (mkWorld (rng w) 2 [secs] []))).
Proof.
  cbv zeta. split.
  - destruct (X8_internal_rejections
                (mk "SSD" 256 8 (Py.list_repeat "" 8) (Py.list_repeat free 8) [] 4
                    (Qmake 5 100))
                8 "abc" (mkWorld (fun _ => 0%N) 0 [] [])) as [secs [Hrange _]].
    exists secs. apply Hrange. simpl. lia.
  - destruct (X8_internal_rejections
                (mk "SSD" 256 8 (Py.list_repeat "" 8) (Py.list_repeat free 8) [] 4
                    (Qmake 5 100))
                3 "abc" (mkWorld (fun _ => 0%N) 0 [] [])) as [secs [_ Hfault]].
    exists secs. apply Hfault; [simpl; lia | reflexivity].
Defined.

Lemma get_elem_of k v (c : OrderedDict.t) :
  OrderedDict.get k c = Some v → (k, v) ∈ c.
Proof.
  induction c as [|[k' v'] c IH]; simpl; [done|].
  case_decide as Hk.
  - intros [= ->]. subst. apply elem_of_cons. by left.
  - intros H. apply elem_of_cons. right. by apply IH.
Qed.

Lemma keys_elem_of k (c : OrderedDict.t) :
  k ∈ OrderedDict.keys c ↔ ∃ v, (k, v) ∈ c.
Proof.
  unfold OrderedDict.keys. rewrite list_elem_of_fmap. split.
  - intros [[k' v] [-> Hin]]. by exists v.
  - intros [v Hin]. by exists (k, v).
Qed.

(** Replacing the cache keeps the invariant when the new cache has no key
    twice and each of its entries is an old one or a valid new one. *)
Lemma inv_set_cache self c :
  inv self →
  NoDup (OrderedDict.keys c) →
  (∀ kv, kv ∈ c →
     kv ∈ cache self ∨
     (is_Some (Py.norm_index (length (storage self)) kv.1) ∧
      (0 ≤ block_size self →
       (String.length kv.2 ≤ Z.to_nat (block_size self))%nat))) →
  inv (set_cache c self).
Proof.
  intros (Hwf & Hnd & Hfree & Hkeys & Hlen) Hnd' Hc.
  split; [done|]. split; [done|]. split; [done|]. split.
  - intros k Hk. cbn [cache set_cache storage] in *.
    apply keys_elem_of in Hk as [v Hin].
    destruct (Hc _ Hin) as [Hold|[Hvalid _]]; [|done].
    apply Hkeys, keys_elem_of. by exists v.
  - intros Hbs. cbn [cache set_cache storage block_size] in *.
    destruct (Hlen Hbs) as [Hs Hcache]. split; [done|].
    apply Forall_forall. intros kv Hin.
    destruct (Hc _ Hin) as [Hold|[_ Hnew]]; [|by apply Hnew].
    by apply (proj1 (Forall_forall _ _) Hcache).
Qed.

Lemma inv_move_to_end self block_num c :
  inv self →
  OrderedDict.move_to_end block_num (cache self) = Some c →
  inv (set_cache c self).
Proof.
  intros Hinv. unfold OrderedDict.move_to_end.
  destruct (OrderedDict.get block_num (cache self)) as [v|] eqn:Hget; [|done].
  intros [= <-]. apply inv_set_cache; [done| |].
  - unfold OrderedDict.keys. rewrite fmap_app.
    fold (OrderedDict.keys (OrderedDict.remove block_num (cache self))).
    rewrite keys_remove. apply (touch_NoDup block_num). apply Hinv.
  - intros kv Hin. left. apply elem_of_app in Hin as [Hin|Hin].
    + unfold OrderedDict.remove in Hin. by apply list_elem_of_filter in Hin as [_ ?].
    + apply list_elem_of_singleton in Hin as ->. by apply get_elem_of.
Qed.

Lemma inv_update_cache self block_num data w :
  inv self →
  is_Some (Py.norm_index (length (storage self)) block_num) →
  (0 ≤ block_size self →
   (String.length data ≤ Z.to_nat (block_size self))%nat) →
  inv (_update_cache self block_num data w).1.2.
Proof.
  intros Hinv Hvalid Hdata. unfold _update_cache.
  destruct (OrderedDict.contains block_num (cache self)) eqn:Hin.
  - destruct (OrderedDict.move_to_end block_num (cache self)) as [c|] eqn:Hmv;
      [|done]. by eapply inv_move_to_end.
  - assert (block_num ∉ OrderedDict.keys (cache self)) as Hnot.
    { intros H. apply contains_spec in H. congruence. }
    assert (∀ c' : OrderedDict.t,
              NoDup (OrderedDict.keys c') → block_num ∉ OrderedDict.keys c' →
              (∀ kv, kv ∈ c' → kv ∈ cache self) →
              inv (set_cache (OrderedDict.set block_num data c') self)) as Hset.
    { intros c' Hnd Hb Hsub. rewrite set_fresh by done.
      apply inv_set_cache; [done| |].
      - unfold OrderedDict.keys. rewrite fmap_app. apply NoDup_app.
        split; [done|]. split; [|apply NoDup_singleton].
        intros x Hx Hx'. apply list_elem_of_singleton in Hx'. by subst.
      - intros kv Hkv. apply elem_of_app in Hkv as [Hkv|Hkv]; [left; by apply Hsub|].
        apply list_elem_of_singleton in Hkv as ->. by right. }
    case_decide.
    + destruct (OrderedDict.popitem_first (cache self)) as [[kv c']|] eqn:Hpop;
        [|done].
      assert (cache self = kv :: c') as Hc.
      { unfold OrderedDict.popitem_first in Hpop.
        destruct (cache self); [done|]. by injection Hpop as -> ->. }
      cbn [fst snd]. apply Hset.
      * destruct Hinv as (_ & Hnd & _). rewrite Hc in Hnd.
        unfold OrderedDict.keys in Hnd. rewrite fmap_cons in Hnd.
        by apply NoDup_cons in Hnd as [_ ?].
      * rewrite Hc in Hnot. unfold OrderedDict.keys in Hnot.
        rewrite fmap_cons in Hnot. by apply not_elem_of_cons in Hnot as [_ ?].
      * intros kv' Hkv. rewrite Hc. apply elem_of_cons. by right.
    + apply Hset; [apply Hinv | done | done].
Qed.

Lemma inv_store self i data :
  inv self → (i < length (storage self))%nat →
  inv (set_block_state (<[i:=used]> (block_state self))
         (set_storage (<[i:=Py.slice_to data (block_size self)]> (storage self))
            self)).
Proof.
  intros ([Hs Hb] & Hnd & Hfree & Hkeys & Hlen) Hi.
  split; [split; cbn; by rewrite length_insert|].
  split; [done|]. cbn [storage block_state cache block_size set_storage set_block_state].
  split; [|split].
  - intros j Hj. destruct (decide (j = i)) as [->|Hne].
    + rewrite list_lookup_insert_eq in Hj by lia. done.
    + rewrite list_lookup_insert_ne in Hj by done.
      rewrite list_lookup_insert_ne by done. by apply Hfree.
  - intros k Hk. rewrite length_insert. by apply Hkeys.
  - intros Hbs. destruct (Hlen Hbs) as [Hst Hc]. split; [|done].
    apply Forall_insert; [done|]. rewrite slice_to_length by done. lia.
Qed.

Lemma write_block_inv self block_num data w :
  inv self →
  let '(_, self', _) := write_block self block_num data w in
  inv self' ∧ geometry self' = geometry self.
Proof.
  intros Hinv. unfold write_block.
  destruct (simulate_latency self w) as [[[]|e] w1]; [|done].
  case_decide; [done|].
  destruct (simulate_failure self w1) as [[] w2]; [done|].
  unfold Py.setitem.
  destruct (Py.norm_index (length (storage self)) block_num) as [i|] eqn:Hi;
    [|done].
  cbn [block_state set_storage].
  assert (length (block_state self) = length (storage self)) as Hlen.
  { destruct Hinv as ([-> ->] & _). done. }
  rewrite Hlen, Hi.
  set (self1 := set_block_state _ _).
  assert (inv self1) as Hinv1.
  { apply inv_store; [done|]. by eapply norm_index_lt. }
  assert (inv (_update_cache self1 block_num
                 (Py.slice_to data (block_size self1)) w2).1.2) as Hinv2.
  { apply inv_update_cache; [done| |].
    - unfold self1. cbn [storage set_block_state set_storage].
      rewrite length_insert, Hi. done.
    - intros Hbs. rewrite slice_to_length by done. lia. }
  destruct (_update_cache_frame self1 block_num
              (Py.slice_to data (block_size self1)) w2) as [c Hc].
  destruct (_update_cache self1 _ _ w2) as [[[[]|e] self2] w3];
    cbn [fst snd] in *; by subst.
Qed.

Lemma read_block_inv self block_num w :
  inv self →
  let '(_, self', _) := read_block self block_num w in
  inv self' ∧ geometry self' = geometry self.
Proof.
  intros Hinv. unfold read_block.
  destruct (simulate_latency self w) as [[[]|e] w1]; [|done].
  case_decide; [done|].
  destruct (simulate_failure self w1) as [[] w2]; [done|].
  destruct (OrderedDict.contains block_num (cache self)).
  - destruct (OrderedDict.get block_num (cache self)); [|done].
    destruct (OrderedDict.move_to_end block_num (cache self)) as [c|] eqn:Hmv;
      [|done].
    split; [by eapply inv_move_to_end | done].
  - unfold Py.getitem.
    destruct (Py.norm_index (length (storage self)) block_num) as [i|] eqn:Hi;
      [|done].
    destruct (storage self !! i) as [data|] eqn:Hdata; [|done].
    assert (inv (_update_cache self block_num data w2).1.2) as Hinv2.
    { apply inv_update_cache; [done | by rewrite Hi |].
      intros Hbs. destruct Hinv as (_ & _ & _ & _ & Hlen).
      destruct (Hlen Hbs) as [Hst _].
      apply (proj1 (Forall_forall _ _) Hst). by eapply list_elem_of_lookup_2. }
    destruct (_update_cache_frame self block_num data w2) as [c Hc].
    destruct (_update_cache self block_num data w2) as [[[[]|e] self2] w3];
      cbn [fst snd] in *; by subst.
Qed.

Lemma run_calls_inv cs : ∀ self w,
  inv self →
  inv (run_calls cs (self, w)).1 ∧
  geometry (run_calls cs (self, w)).1 = geometry self.
Proof.
  induction cs as [|c cs IH]; intros self w Hinv; [done|].
  cbn [run_calls foldl]. fold (run_calls cs (step c (self, w))).
  assert (inv (step c (self, w)).1 ∧
          geometry (step c (self, w)).1 = geometry self) as [Hinv1 Hgeo1].
  { destruct c as [b data|b]; cbn [step fst snd].
    - pose proof (write_block_inv self b data w Hinv) as H.
      by destruct (write_block self b data w) as [[r self'] w'].
    - pose proof (read_block_inv self b w Hinv) as H.
      by destruct (read_block self b w) as [[r self'] w']. }
  destruct (step c (self, w)) as [self1 w1]. cbn [fst] in *.
  destruct (IH self1 w1 Hinv1) as [H1 H2]. split; [done|]. by rewrite H2.
Qed.

Lemma internal_init_inv name capacity block_size cache_size w self w' :
  __init__ name capacity block_size cache_size w = (Return self, w') →
  inv self ∧
  geometry self =
    (name, block_size, capacity `div` block_size, cache_size, Qmake 5 100).
Proof.
  unfold __init__. case_decide; [done|]. intros [= <- <-]. split; [|done].
  unfold inv, blocks_wf, Py.list_repeat. cbn.
  rewrite !length_replicate. split; [done|]. split; [apply NoDup_nil_2|].
  split; [|split].
  - intros i Hi. apply lookup_replicate in Hi as [_ Hlt].
    by apply lookup_replicate_2.
  - intros k Hk. by apply elem_of_nil in Hk.
  - intros _. split; [|done]. apply Forall_replicate. simpl. lia.
Qed.

(** X9: on a device built by the constructor, whatever the calls (and their
    faults and exceptions): both arrays keep one slot per block, no key is
    cached twice, a slot still marked free holds the empty string, every
    cached key addresses a slot, no stored or cached payload is longer than a
    non-negative block size, and name, block size, block count, cache size
    and failure chance are those of the construction. *)
Theorem X9_internal_invariants (name : string)
    (capacity block_size cache_size : Z) (w0 w0' : World)
    (self0 : InternalMemoryDevice.t) (cs : list InternalMemoryDevice.call) :
  __init__ name capacity block_size cache_size w0 = (Return self0, w0') →
  let self := (run_calls cs (self0, w0')).1 in
  inv self ∧
  geometry self =
    (name, block_size, capacity `div` block_size, cache_size, Qmake 5 100).
Proof.
  intros Hinit. cbv zeta.
  destruct (internal_init_inv _ _ _ _ _ _ _ Hinit) as [Hinv0 Hgeo0].
  destruct (run_calls_inv cs self0 w0' Hinv0) as [Hinv Hgeo].
  split; [done|]. by rewrite Hgeo.
Qed.

Lemma X9_internal_invariants_witness :
  let w0 := mkWorld (fun _ => (2 ^ 52)%N) 0 [] [] in
  let cs := [Write_block 0 "a"; Read_block 1; Write_block (- 1) "c";
             Read_block 9; Write_block (- 9) "d"] in
  let self0 := mk "SSD" 256 8 (Py.list_repeat "" 8) (Py.list_repeat free 8) [] 2
                  (Qmake 5 100) in
  let self := (run_calls cs (self0, print (INIT_blocks "SSD" 8) w0)).1 in
  inv self ∧ geometry self = ("SSD", 256, 2048 `div` 256, 2, Qmake 5 100).
Proof.
  exact (X9_internal_invariants "SSD" 2048 256 2
           (mkWorld (fun _ => (2 ^ 52)%N) 0 [] []) _ _
           [Write_block 0 "a"; Read_block 1; Write_block (- 1) "c";
            Read_block 9; Write_block (- 9) "d"] eq_refl).
Defined.

(** X10: two reads of the same block in a row, without a simulated fault,
    return the same payload, and the second one is a cache hit. *)
Theorem X10_read_twice (self : InternalMemoryDevice.t) (block_num : Z)
    (w : World) :
  0 < cache_size self → blocks_wf self →
  - total_blocks self ≤ block_num < total_blocks self →
  Qltb (draw_at w (S (draws w))) (failure_chance self) = false →
  Qltb (draw_at w (S (S (S (draws w))))) (failure_chance self) = false →
  ∃ payload self1 w1 self2 w2,
    read_block self block_num w = (Return payload, self1, w1) ∧
    read_block self1 block_num w1 = (Return payload, self2, w2) ∧
    last (stdout w2) =
      Some (CACHE_HIT (name self) block_num (Py.slice_to payload 30)).
Proof.
  intros Hcs [Hs _] Hrange Hok1 Hok2.
  assert (∃ c payload w1,
            read_block self block_num w = (Return payload, set_cache c self, w1) ∧
            rng w1 = rng w ∧ draws w1 = S (S (draws w)) ∧
            OrderedDict.contains block_num c = true ∧
            OrderedDict.get block_num c = Some payload)
    as (c & payload & w1 & Hr1 & Hrng & Hdraws & Hin & Hget).
  { destruct (read_block_spec self block_num w Hcs) as [secs H]. cbv zeta in H.
    rewrite decide_False in H by lia.
    unfold simulate_failure, random, draw_at in H, Hok1.
    cbn [fst snd rng draws] in H. rewrite Hok1 in H.
    assert (∀ c : OrderedDict.t,
              OrderedDict.keys c =
                LRU.lru_touch (cache_size self) block_num
                  (OrderedDict.keys (cache self)) →
              OrderedDict.contains block_num c = true) as Hlast.
    { intros c Hk. apply contains_spec.
      pose proof (lru_touch_last (cache_size self) block_num
                    (OrderedDict.keys (cache self))) as Hl.
      rewrite <- Hk in Hl. apply last_Some in Hl as [l' ->].
      apply elem_of_app. right. by apply list_elem_of_singleton. }
    destruct (OrderedDict.contains block_num (cache self)).
    - destruct H as (payload & c & _ & Hr & Hk & Hg).
      exists c, payload. eexists. split; [done|]. by auto.
    - assert (is_Some (Py.getitem (storage self) block_num)) as [data Hdata].
      { unfold Py.getitem.
        destruct (Py.norm_index (length (storage self)) block_num) as [i|] eqn:Hi.
        - apply lookup_lt_is_Some. by eapply norm_index_lt.
        - unfold Py.norm_index in Hi. rewrite Hs in Hi.
          repeat case_decide; try done; lia. }
      rewrite Hdata in H. destruct H as (c & log & Hr & _ & Hk & Hg).
      exists c, data. eexists. split; [done|]. by auto. }
  exists payload, (set_cache c self), w1.
  destruct (read_block_spec (set_cache c self) block_num w1 Hcs) as [secs H].
  cbv zeta in H. cbn [total_blocks set_cache cache] in H.
  rewrite decide_False in H by lia.
  unfold simulate_failure, random, draw_at in H, Hok2.
  cbn [fst snd rng draws failure_chance set_cache] in H.
  rewrite Hrng, Hdraws, Hok2, Hin in H.
  destruct H as (payload' & c' & Hget' & Hr2 & _).
  assert (payload' = payload) as -> by congruence.
  do 2 eexists. split; [done|]. split; [done|].
  unfold print. cbn. apply last_snoc.
Qed.

Lemma X10_read_twice_witness :
  let self := mk "SSD" 256 8 (Py.list_repeat "" 8) (Py.list_repeat free 8)
                 [(3, "old")] 4 (Qmake 5 100) in
  let w := mkWorld (fun _ => (2 ^ 52)%N) 0 [] [] in
  ∃ payload self1 w1 self2 w2,
    read_block self 5 w = (Return payload, self1, w1) ∧
    read_block self1 5 w1 = (Return payload, self2, w2) ∧
    last (stdout w2) = Some (CACHE_HIT "SSD" 5 (Py.slice_to payload 30)).
Proof.
  apply (X10_read_twice
           (mk "SSD" 256 8 (Py.list_repeat "" 8) (Py.list_repeat free 8)
               [(3, "old")] 4 (Qmake 5 100))
           5 (mkWorld (fun _ => (2 ^ 52)%N) 0 [] [])).
  - simpl. lia.
  - split; reflexivity.
  - simpl. lia.
  - reflexivity.
  - reflexivity.
Defined.

(** X11: a read that follows a successful write, without a simulated fault,
    is a cache hit that leaves the storage alone; it returns the truncated
    payload just written when the block was not cached before the write. *)
Theorem X11_read_after_write (self : InternalMemoryDevice.t) (block_num : Z)
    (data : string) (w : World) (self' : InternalMemoryDevice.t) (w' : World) :
  0 < cache_size self →
  write_block self block_num data w = (Return true, self', w') →
  Qltb (draw_at w' (S (draws w'))) (failure_chance self') = false →
  ∃ payload self'' w'',
    read_block self' block_num w' = (Return payload, self'', w'') ∧
    storage self'' = storage self' ∧
    last (stdout w'') =
      Some (CACHE_HIT (name self') block_num (Py.slice_to payload 30)) ∧
    (OrderedDict.contains block_num (cache self) = false →
     payload = Py.slice_to data (block_size self) ∧
     Py.getitem (storage self') block_num = Some payload).
Proof.
  intros Hcs Hw Hok.
  destruct (write_then_read _ _ _ _ _ _ Hcs Hw Hok)
    as (payload & self'' & w'' & Hr & Hst & Hlast & Hfresh).
  destruct (write_block_success _ _ _ _ _ _ Hcs Hw) as (Hslot & _).
  exists payload, self'', w''. split; [done|]. split; [done|]. split; [done|].
  intros Hnew. rewrite (Hfresh Hnew). done.
Qed.

Lemma X11_read_after_write_witness :
  let self := mk "SSD" 2 8 (Py.list_repeat "" 8) (Py.list_repeat free 8) [] 4
                 (Qmake 5 100) in
  let w := mkWorld (fun _ => (2 ^ 52)%N) 0 [] [] in
  let self' := (write_block self 0 "abc" w).1.2 in
  let w' := (write_block self 0 "abc" w).2 in
  ∃ payload self'' w'',
    read_block self' 0 w' = (Return payload, self'', w'') ∧
    storage self'' = storage self' ∧
    last (stdout w'') = Some (CACHE_HIT (name self') 0 (Py.slice_to payload 30)) ∧
    (OrderedDict.contains 0 (cache self) = false →
     payload = Py.slice_to "abc" (block_size self) ∧
     Py.getitem (storage self') 0 = Some payload).
Proof.
  cbv zeta.
  apply (X11_read_after_write
           (mk "SSD" 2 8 (Py.list_repeat "" 8) (Py.list_repeat free 8) [] 4
               (Qmake 5 100))
           0 "abc" (mkWorld (fun _ => (2 ^ 52)%N) 0 [] [])).
  - simpl. lia.
  - vm_compute. reflexivity.
  - vm_compute. reflexivity.
Defined.

(** X12: a block number below [-total_blocks] is not caught by the range
    check: without a simulated fault both [write_block] and [read_block]
    raise [IndexError] from the list access, after the latency and the
    failure draw, with the device unchanged and nothing printed. *)
Theorem X12_index_below_range_raises (self : InternalMemoryDevice.t) (k : Z)
    (data : string) (w : World) :
  inv self → 0 ≤ total_blocks self < k →
  Qltb (draw_at w (S (draws w))) (failure_chance self) = false →
  ∃ secs,
    let w2 := mkWorld (rng w) (S (S (draws w))) (slept w ++ [secs]) (stdout w) in
    write_block self (- k) data w = (Raise Py.IndexError, self, w2) ∧
    read_block self (- k) w = (Raise Py.IndexError, self, w2).
Proof.
  intros ([Hs Hb] & _ & _ & Hkeys & _) Hk Hok.
  destruct (simulate_latency_returns self w) as [secs Hlat]. exists secs.
  assert (Py.norm_index (length (storage self)) (- k) = None) as Hnone.
  { unfold Py.norm_index. rewrite Hs. rewrite !decide_False by lia. done. }
  cbv zeta. unfold write_block, read_block. rewrite Hlat.
  rewrite !decide_False by lia.
  unfold simulate_failure, random, draw_at in *.
  cbn [fst snd rng draws]. rewrite Hok.
  unfold Py.setitem, Py.getitem. rewrite Hnone. split; [done|].
  destruct (OrderedDict.contains (- k) (cache self)) eqn:Hin; [|done].
  apply contains_spec, Hkeys in Hin. rewrite Hnone in Hin. by destruct Hin.
Qed.

Lemma X12_index_below_range_raises_witness :
  let self := mk "SSD" 256 8 (Py.list_repeat "" 8) (Py.list_repeat free 8) [] 4
                 (Qmake 5 100) in
  let w := mkWorld (fun _ => (2 ^ 52)%N) 0 [] [] in
  ∃ secs,
    let w2 := mkWorld (rng w) 2 (slept w ++ [secs]) (stdout w) in
    write_block self (- 9) "abc" w = (Raise Py.IndexError, self, w2) ∧
    read_block self (- 9) w = (Raise Py.IndexError, self, w2).
Proof.
  apply (X12_index_below_range_raises
           (mk "SSD" 256 8 (Py.list_repeat "" 8) (Py.list_repeat free 8) [] 4
               (Qmake 5 100))
           9 "abc" (mkWorld (fun _ => (2 ^ 52)%N) 0 [] [])).
  - exact (proj1 (internal_init_inv "SSD" 2048 256 4
                    (mkWorld (fun _ => 0%N) 0 [] []) _ _ eq_refl)).
  - simpl. lia.
  - reflexivity.
Defined.

Lemma substring_0_prefix n s : String.prefix (String.substring 0 n s) s = true.
Proof.
  revert n. induction s as [|c s IH]; intros [|n]; simpl; try done.
  destruct (Ascii.ascii_dec c c); [apply IH | done].
Qed.

(** X13: what a successful [write_block] leaves in the addressed slot is a
    prefix of the data, [block_size] characters long, or all of the data if
    it is shorter (for a non-negative block size). *)
Theorem X13_stored_payload_is_a_prefix (self : InternalMemoryDevice.t)
    (block_num : Z) (data : string) (w : World)
    (self' : InternalMemoryDevice.t) (w' : World) :
  0 ≤ block_size self →
  write_block self block_num data w = (Return true, self', w') →
  ∃ stored,
    Py.getitem (storage self') block_num = Some stored ∧
    String.prefix stored data = true ∧
    String.length stored = min (Z.to_nat (block_size self)) (String.length data).
Proof.
  intros Hbs. unfold write_block.
  destruct (simulate_latency self w) as [[[]|e] w1]; [|done].
  case_decide; [done|].
  destruct (simulate_failure self w1) as [[] w2]; [done|].
  destruct (Py.setitem (storage self) block_num
              (Py.slice_to data (block_size self))) as [s|] eqn:Hset; [|done].
  cbn [block_state set_storage].
  destruct (Py.setitem (block_state self) block_num used) as [b|]; [|done].
  match goal with |- context [_update_cache ?s ?b ?d ?w0] =>
    destruct (_update_cache_frame s b d w0) as [c Hc];
    destruct (_update_cache s b d w0) as [[[[]|e] self2] w3]; [|done]
  end.
  cbn [fst snd] in Hc. intros [= <- <-]. subst self2.
  exists (Py.slice_to data (block_size self)).
  split; [by apply (getitem_setitem (storage self))|].
  split; [|by apply slice_to_length].
  unfold Py.slice_to. rewrite decide_True by done. apply substring_0_prefix.
Qed.

Lemma X13_stored_payload_is_a_prefix_witness :
  let self := mk "SSD" 2 8 (Py.list_repeat "" 8) (Py.list_repeat free 8) [] 4
                 (Qmake 5 100) in
  let w := mkWorld (fun _ => (2 ^ 52)%N) 0 [] [] in
  ∃ stored,
    Py.getitem (storage (write_block self 3 "abc" w).1.2) 3 = Some stored ∧
    String.prefix stored "abc" = true ∧
    String.length stored = min (Z.to_nat 2) (String.length "abc").
Proof.
  apply (X13_stored_payload_is_a_prefix
           (mk "SSD" 2 8 (Py.list_repeat "" 8) (Py.list_repeat free 8) [] 4
               (Qmake 5 100))
           3 "abc" (mkWorld (fun _ => (2 ^ 52)%N) 0 [] []) _
           (write_block
              (mk "SSD" 2 8 (Py.list_repeat "" 8) (Py.list_repeat free 8) [] 4
                  (Qmake 5 100))
              3 "abc" (mkWorld (fun _ => (2 ^ 52)%N) 0 [] [])).2).
  - simpl. lia.
  - vm_compute. reflexivity.
Defined.

End InternalMemoryDevice_more.

(** ** The removable device: round trips and frames *)
Section RemovableMemoryDevice_more.
Import RemovableMemoryDevice.
Local Open Scope Z_scope.

(** What a successful [write_block] did. *)
Lemma removable_write_success r block_num data w r' w' :
  write_block r block_num data w = (Return true, r', w') →
  inserted r = true ∧ block_num < total_blocks r ∧
  ∃ i j secs,
    Py.norm_index (length (storage r)) block_num = Some i ∧
    Py.norm_index (length (block_state r)) block_num = Some j ∧
    r' = set_block_state (<[j:=used]> (block_state r))
           (set_storage (<[i:=Py.slice_to data (block_size r)]> (storage r)) r) ∧
    w' = print (WRITE_block (name r) block_num (Py.slice_to data 30))
           (mkWorld (rng w) (S (S (draws w))) (slept w ++ [secs]) (stdout w)).
Proof.
  unfold write_block. destruct (inserted r); [|done]. cbn [negb].
  case_decide; [done|].
  destruct (removable_latency_returns r w) as [secs ->].
  unfold simulate_failure, random. cbn [fst snd rng draws slept stdout].
  destruct (Qltb _ _); [done|]. unfold Py.setitem.
  destruct (Py.norm_index (length (storage r)) block_num) as [i|]; [|done].
  cbn [block_state set_storage].
  destruct (Py.norm_index (length (block_state r)) block_num) as [j|]; [|done].
  intros [= <- <-]. split; [done|]. split; [lia|]. by exists i, j, secs.
Qed.

(** X14: on the removable device a read that follows a successful write,
    without a simulated fault, returns the data truncated to the block size
    and leaves the device as the write left it. *)
Theorem X14_removable_read_after_write (r : RemovableMemoryDevice.t)
    (block_num : Z) (data : string) (w : World)
    (r' : RemovableMemoryDevice.t) (w' : World) :
  write_block r block_num data w = (Return true, r', w') →
  Qltb (draw_at w' (S (draws w'))) (failure_chance r') = false →
  ∃ w'',
    read_block r' block_num w' =
      (Return (Py.slice_to data (block_size r)), r', w'') ∧
    stdout w'' =
      stdout w' ++ [READ_block (name r) block_num
                      (Py.slice_to (Py.slice_to data (block_size r)) 30)].
Proof.
  intros Hw Hok.
  destruct (removable_write_success _ _ _ _ _ _ Hw)
    as (Hins & Hrange & i & j & secs & Hi & Hj & -> & ->).
  unfold read_block.
  cbn [inserted total_blocks set_block_state set_storage negb]. rewrite Hins.
  cbn [negb]. rewrite decide_False by lia.
  match goal with |- context [simulate_latency ?s ?w0] =>
    destruct (removable_latency_returns s w0) as [secs' ->]
  end.
  unfold simulate_failure, random, draw_at in *.
  cbn [fst snd rng draws slept stdout failure_chance set_block_state
       set_storage print] in *.
  rewrite Hok. unfold Py.getitem.
  cbn [storage set_block_state set_storage name].
  rewrite length_insert, Hi.
  rewrite list_lookup_insert_eq by (by eapply norm_index_lt).
  eexists. split; [done|]. done.
Qed.

Lemma X14_removable_read_after_write_witness :
  let r := mk "USB Stick" false "" 1024 4 8 (Py.list_repeat "" 8) true
              (Py.list_repeat free 8) (Qmake 3 100) in
  let w := mkWorld (fun _ => (2 ^ 52)%N) 0 [] [] in
  let r' := (write_block r (- 2) "abcdefgh" w).1.2 in
  let w' := (write_block r (- 2) "abcdefgh" w).2 in
  ∃ w'',
    read_block r' (- 2) w' = (Return (Py.slice_to "abcdefgh" 4), r', w'') ∧
    stdout w'' =
      stdout w' ++ [READ_block "USB Stick" (- 2)
                      (Py.slice_to (Py.slice_to "abcdefgh" 4) 30)].
Proof.
  cbv zeta.
  apply (X14_removable_read_after_write
           (mk "USB Stick" false "" 1024 4 8 (Py.list_repeat "" 8) true
               (Py.list_repeat free 8) (Qmake 3 100))
           (- 2) "abcdefgh" (mkWorld (fun _ => (2 ^ 52)%N) 0 [] [])).
  - vm_compute. reflexivity.
  - vm_compute. reflexivity.
Defined.

(** X15: [read_block] never changes the removable device, and
    [write_block] either leaves it as it was (whenever it does not return
    [True]) or changes exactly the addressed slot of the storage and of the
    block states. *)
Theorem X15_removable_frame (r : RemovableMemoryDevice.t) (block_num : Z)
    (data : string) (w : World) :
  blocks_wf r →
  (read_block r block_num w).1.2 = r ∧
  let '(res, r', _) := write_block r block_num data w in
  (res ≠ Return true ∧ r' = r) ∨
  (res = Return true ∧
   ∃ i, Py.norm_index (Z.to_nat (total_blocks r)) block_num = Some i ∧
        r' = set_block_state (<[i:=used]> (block_state r))
               (set_storage (<[i:=Py.slice_to data (block_size r)]> (storage r)) r)).
Proof.
  intros [Hs Hb]. split.
  - unfold read_block. destruct (inserted r); [|done]. cbn [negb].
    case_decide; [done|].
    destruct (simulate_latency r w) as [[[]|e] w1]; [|done].
    destruct (simulate_failure r w1) as [[] w2]; [done|].
    by destruct (Py.getitem (storage r) block_num).
  - unfold write_block. destruct (inserted r); [|by left]. cbn [negb].
    case_decide; [by left|].
    destruct (simulate_latency r w) as [[[]|e] w1]; [|by left].
    destruct (simulate_failure r w1) as [[] w2]; [by left|].
    unfold Py.setitem. cbn [block_state set_storage]. rewrite Hs, Hb.
    destruct (Py.norm_index (Z.to_nat (total_blocks r)) block_num) as [i|];
      [|by left].
    right. split; [done|]. by exists i.
Qed.

Lemma X15_removable_frame_witness :
  let r := mk "USB Stick" false "" 1024 128 8 (Py.list_repeat "" 8) true
              (Py.list_repeat free 8) (Qmake 3 100) in
  let w := mkWorld (fun _ => (2 ^ 52)%N) 0 [] [] in
  (read_block r 3 w).1.2 = r ∧
  let '(res, r', _) := write_block r 3 "abc" w in
  (res ≠ Return true ∧ r' = r) ∨
  (res = Return true ∧
   ∃ i, Py.norm_index (Z.to_nat 8) 3 = Some i ∧
        r' = set_block_state (<[i:=used]> (block_state r))
               (set_storage (<[i:=Py.slice_to "abc" 128]> (storage r)) r)).
Proof.
  apply (X15_removable_frame
           (mk "USB Stick" false "" 1024 128 8 (Py.list_repeat "" 8) true
               (Py.list_repeat free 8) (Qmake 3 100))
           3 "abc" (mkWorld (fun _ => (2 ^ 52)%N) 0 [] [])).
  split; reflexivity.
Defined.

(** X16: on an inserted removable device the range check comes before the
    latency, so an out-of-range block is reported without any draw or
    sleep; a simulated fault costs the latency and the failure draw.  Both
    leave the device unchanged; the write returns [False], the read the
    empty string or "[READ FAILURE]". *)
Theorem X16_removable_rejections (r : RemovableMemoryDevice.t) (block_num : Z)
    (data : string) (w : World) :
  inserted r = true →
  (total_blocks r ≤ block_num →
   write_block r block_num data w =
     (Return false, r, print (ERROR_out_of_range (name r) block_num) w) ∧
   read_block r block_num w =
     (Return "", r, print (ERROR_out_of_range (name r) block_num) w)) ∧
  (block_num < total_blocks r →
   Qltb (draw_at w (S (draws w))) (failure_chance r) = true →
   ∃ secs,
     let w2 := mkWorld (rng w) (S (S (draws w))) (slept w ++ [secs]) (stdout w) in
     write_block r block_num data w =
       (Return false, r, print (FAILURE_write (name r) block_num) w2) ∧
     read_block r block_num w =
       (Return "[READ FAILURE]", r, print (FAILURE_read (name r) block_num) w2)).
Proof.
  intros Hins. unfold write_block, read_block. rewrite Hins. cbn [negb]. split.
  - intros Hge. by rewrite !decide_True by done.
  - intros Hlt Hfault. rewrite !decide_False by lia.
    destruct (removable_latency_returns r w) as [secs ->]. exists secs.
    unfold simulate_failure, random, draw_at in *.
    cbn [fst snd rng draws]. by rewrite Hfault.
Qed.

Lemma X16_removable_rejections_witness :
  let r := mk "USB Stick" false "" 1024 128 8 (Py.list_repeat "" 8) true
              (Py.list_repeat free 8) (Qmake 3 100) in
  let w := mkWorld (fun _ => 0%N) 0 [] [] in
  write_block r 8 "abc" w =
    (Return false, r, print (ERROR_out_of_range "USB Stick" 8) w) ∧
  read_block r 8 w = (Return "", r, print (ERROR_out_of_range "USB Stick" 8) w).
Proof.
  apply (X16_removable_rejections
           (mk "USB Stick" false "" 1024 128 8 (Py.list_repeat "" 8) true
               (Py.list_repeat free 8) (Qmake 3 100))
           8 "abc" (mkWorld (fun _ => 0%N) 0 [] [])).
  - reflexivity.
  - simpl. lia.
Defined.

(** X17: ejecting and re-inserting the device loses nothing: after a
    successful write, [eject()] then [insert()] give back the very same
    device, and a read of the block (without a simulated fault) returns the
    truncated data. *)
Theorem X17_eject_insert_keeps_data (r : RemovableMemoryDevice.t)
    (block_num : Z) (data : string) (w : World)
    (r' : RemovableMemoryDevice.t) (w' : World) :
  write_block r block_num data w = (Return true, r', w') →
  let '(r1, w1) := eject r' w' in
  let '(r2, w2) := insert r1 w1 in
  inserted r1 = false ∧ r2 = r' ∧
  (Qltb (draw_at w2 (S (draws w2))) (failure_chance r2) = false →
   ∃ w3, read_block r2 block_num w2 =
           (Return (Py.slice_to data (block_size r)), r2, w3)).
Proof.
  intros Hw.
  destruct (removable_write_success _ _ _ _ _ _ Hw) as (Hins & _ & _).
  assert (inserted r' = true) as Hins'.
  { destruct (removable_write_success _ _ _ _ _ _ Hw)
      as (_ & _ & i & j & secs & _ & _ & -> & _). done. }
  unfold eject, insert. split; [done|].
  assert (set_inserted true (set_inserted false r') = r') as Heq.
  { destruct r'. simpl in *. by subst. }
  rewrite Heq. split; [done|]. intros Hok.
  set (w2 := print _ (print _ w')) in *.
  destruct (removable_write_success _ _ _ _ _ _ Hw)
    as (_ & Hrange & i & j & secs & Hi & Hj & Hr' & _).
  unfold read_block. rewrite Hins'. cbn [negb].
  assert (total_blocks r' = total_blocks r) as -> by (by subst r').
  rewrite decide_False by lia.
  destruct (removable_latency_returns r' w2) as [secs' ->].
  unfold simulate_failure, random, draw_at in *.
  cbn [fst snd rng draws slept stdout] in *. rewrite Hok.
  unfold Py.getitem. subst r'. cbn [storage set_block_state set_storage].
  rewrite length_insert, Hi.
  rewrite list_lookup_insert_eq by (by eapply norm_index_lt).
  by eexists.
Qed.

Lemma X17_eject_insert_keeps_data_witness :
  let r := mk "USB Stick" false "" 1024 4 8 (Py.list_repeat "" 8) true
              (Py.list_repeat free 8) (Qmake 3 100) in
  let w := mkWorld (fun _ => (2 ^ 52)%N) 0 [] [] in
  let r' := (write_block r 5 "abcdefgh" w).1.2 in
  let w' := (write_block r 5 "abcdefgh" w).2 in
  let '(r1, w1) := eject r' w' in
  let '(r2, w2) := insert r1 w1 in
  inserted r1 = false ∧ r2 = r' ∧
  (Qltb (draw_at w2 (S (draws w2))) (failure_chance r2) = false →
   ∃ w3, read_block r2 5 w2 = (Return (Py.slice_to "abcdefgh" 4), r2, w3)).
Proof.
  cbv zeta.
  apply (X17_eject_insert_keeps_data
           (mk "USB Stick" false "" 1024 4 8 (Py.list_repeat "" 8) true
               (Py.list_repeat free 8) (Qmake 3 100))
           5 "abcdefgh" (mkWorld (fun _ => (2 ^ 52)%N) 0 [] [])).
  vm_compute. reflexivity.
Defined.

End RemovableMemoryDevice_more.

(** ** The interrupt table, the driver table and the USB driver *)
Section Driver_USB_more.
Import Driver_USB.

(** X18: the interrupt table has one slot for each event name and the last
    registration wins: triggering an event runs the handler registered last
    under that name, whatever was registered there before, and a
    registration leaves the other names as they were. *)
Theorem X18_last_registration_wins (tbl : InterruptTable)
    (interrupt_type : string) (f1 f2 : handler) (h : Store) (w : World) :
  trigger_interrupt
    (register_interrupt_handler
       (register_interrupt_handler tbl interrupt_type f1) interrupt_type f2)
    interrupt_type h w = call_handler f2 h w ∧
  ∀ other, other ≠ interrupt_type →
    trigger_interrupt (register_interrupt_handler tbl interrupt_type f2) other h w =
    trigger_interrupt tbl other h w.
Proof.
  unfold trigger_interrupt, register_interrupt_handler. cbn [interrupt_handlers].
  split.
  - by rewrite lookup_insert_eq.
  - intros other Hne. by rewrite lookup_insert_ne.
Qed.

Lemma X18_last_registration_wins_witness :
  let d := mkUSBDriver 0 (inject_Z 30) in
  let tbl := register_interrupt_handler InterruptTable__init__ "USB_REMOVE"
               (on_usb_remove_of d) in
  let h : Store := fun _ => DeviceControlBlock__init__ 1 "USB" 128 in
  let w := mkWorld (fun _ => 0%N) 0 [] [] in
  trigger_interrupt (register_interrupt_handler tbl "USB_INSERT" (on_usb_insert_of d))
                    "USB_REMOVE" h w =
  trigger_interrupt tbl "USB_REMOVE" h w.
Proof.
  apply (proj2 (X18_last_registration_wins
                  (register_interrupt_handler InterruptTable__init__ "USB_REMOVE"
                     (on_usb_remove_of (mkUSBDriver 0 (inject_Z 30))))
                  "USB_INSERT" (on_usb_remove_of (mkUSBDriver 0 (inject_Z 30)))
                  (on_usb_insert_of (mkUSBDriver 0 (inject_Z 30)))
                  (fun _ => DeviceControlBlock__init__ 1 "USB" 128)
                  (mkWorld (fun _ => 0%N) 0 [] []))).
  discriminate.
Defined.

(** X19: on a table that holds only the handlers of one driver, an event
    name other than "USB_INSERT" and "USB_REMOVE" (such as "USB_REMOVE "
    with a trailing blank) is reported as unhandled and changes no control
    block: a connected device stays connected. *)
Theorem X19_unregistered_event_is_dropped (a : nat) (interrupt_type : string)
    (h : Store) (w : World) :
  interrupt_type ≠ "USB_INSERT" → interrupt_type ≠ "USB_REMOVE" →
  let '(self, tbl) := USBDriver__init__ a InterruptTable__init__ in
  trigger_interrupt tbl interrupt_type h w =
    (h, print (INTERRUPT_no_handler interrupt_type) w).
Proof.
  intros Hi Hr. unfold USBDriver__init__, trigger_interrupt,
    register_interrupt_handler, InterruptTable__init__. cbn [interrupt_handlers].
  by rewrite !lookup_insert_ne, lookup_empty by done.
Qed.

Lemma X19_unregistered_event_is_dropped_witness :
  let h : Store := fun _ => DeviceControlBlock__init__ 1 "USB" 128 in
  let w := mkWorld (fun _ => 0%N) 0 [] [] in
  let '(self, tbl) := USBDriver__init__ 0 InterruptTable__init__ in
  trigger_interrupt tbl "USB_REMOVE " h w =
    (h, print (INTERRUPT_no_handler "USB_REMOVE ") w).
Proof.
  apply (X19_unregistered_event_is_dropped 0 "USB_REMOVE "
           (fun _ => DeviceControlBlock__init__ 1 "USB" 128)
           (mkWorld (fun _ => 0%N) 0 [] [])); discriminate.
Defined.

(** X20: two drivers built on the same interrupt table: the second
    constructor replaces the handlers of the first, so the insert and remove
    events reach only the control block of the second driver; the control
    block of the first is never changed by them. *)
Theorem X20_second_driver_takes_the_events (a b : nat) (tbl : InterruptTable)
    (h : Store) (w : World) :
  a ≠ b →
  let '(d1, tbl1) := USBDriver__init__ a tbl in
  let '(d2, tbl2) := USBDriver__init__ b tbl1 in
  let h_rem := (trigger_interrupt tbl2 "USB_REMOVE" h w).1 in
  let h_ins := (trigger_interrupt tbl2 "USB_INSERT" h w).1 in
  is_connected (h_rem b) = false ∧ h_rem a = h a ∧
  is_connected (h_ins b) = true ∧ h_ins a = h a.
Proof.
  intros Hab. unfold USBDriver__init__, trigger_interrupt,
    register_interrupt_handler. cbn [interrupt_handlers].
  rewrite lookup_insert_eq. rewrite lookup_insert_ne by done.
  rewrite lookup_insert_eq.
  unfold call_handler, on_usb_insert, on_usb_remove, store_set.
  cbn [fst dcb]. repeat case_decide; done.
Qed.

Lemma X20_second_driver_takes_the_events_witness :
  let h : Store := fun _ => DeviceControlBlock__init__ 1 "USB" 128 in
  let w := mkWorld (fun _ => 0%N) 0 [] [] in
  let '(d1, tbl1) := USBDriver__init__ 0 InterruptTable__init__ in
  let '(d2, tbl2) := USBDriver__init__ 1 tbl1 in
  let h_rem := (trigger_interrupt tbl2 "USB_REMOVE" h w).1 in
  let h_ins := (trigger_interrupt tbl2 "USB_INSERT" h w).1 in
  is_connected (h_rem 1%nat) = false ∧ h_rem 0%nat = h 0%nat ∧
  is_connected (h_ins 1%nat) = true ∧ h_ins 0%nat = h 0%nat.
Proof.
  apply (X20_second_driver_takes_the_events 0 1 InterruptTable__init__
           (fun _ => DeviceControlBlock__init__ 1 "USB" 128)
           (mkWorld (fun _ => 0%N) 0 [] [])).
  discriminate.
Defined.



(** X22: the driver table returns the driver registered last under an
    identifier, leaves the other identifiers alone, and answers [None] for
    an identifier that was never registered. *)
Theorem X22_driver_table_lookup (tbl : DeviceDriverTable) (device_id : Z)
    (d1 d2 : USBDriver) :
  get_driver (register_driver (register_driver tbl device_id d1) device_id d2)
             device_id = Some d2 ∧
  (∀ other, other ≠ device_id →
     get_driver (register_driver tbl device_id d2) other = get_driver tbl other) ∧
  get_driver DeviceDriverTable__init__ device_id = None.
Proof.
  unfold get_driver, register_driver, DeviceDriverTable__init__.
  cbn [drivers]. split; [|split].
  - by rewrite lookup_insert_eq.
  - intros other Hne. by rewrite lookup_insert_ne.
  - apply lookup_empty.
Qed.

Lemma X22_driver_table_lookup_witness :
  let d := mkUSBDriver 0 (inject_Z 30) in
  get_driver (register_driver DeviceDriverTable__init__ 1 d) 2 =
  get_driver DeviceDriverTable__init__ 2.
Proof.
  apply (proj1 (proj2 (X22_driver_table_lookup DeviceDriverTable__init__ 1
                         (mkUSBDriver 0 (inject_Z 30))
                         (mkUSBDriver 0 (inject_Z 30))))).
  discriminate.
Defined.



End Driver_USB_more.

(** ** The keyboard buffer *)
Section KeyboardDevice_more.
Import KeyboardDevice.
Import LRU.
Local Open Scope Z_scope.

Lemma last_n_zero {A} (l : list A) : last_n 0 l = [].
Proof. unfold last_n. rewrite Nat.sub_0_r. apply drop_all. Qed.

(** Appending to a bounded deque keeps the last [n] items. *)
Lemma deque_append_last_n {A} (n : nat) (all : list A) (x : A) :
  Py.items (Py.deque_append (Py.Deque (Z.of_nat n) (last_n n all)) x) =
  last_n n (all ++ [x]).
Proof.
  unfold Py.deque_append. cbn [Py.maxlen Py.items].
  destruct (decide (Z.of_nat n = 0)) as [H0|H0].
  { assert (n = 0%nat) as -> by lia. by rewrite !last_n_zero. }
  cbn [Py.items].
  pose proof (last_n_split n all) as Hsplit.
  pose proof (last_n_cases n all) as Hcases.
  set (K := last_n n all) in *. set (pre := take (length all - n) all) in *.
  clearbody K pre. rewrite Hsplit, <- (assoc_L (++)).
  case_decide as Hfull; cbn [Py.items]; symmetry.
  - destruct Hcases as [[_ Hlt]|Hlen]; [lia|].
    destruct K as [|k K']; [simpl in Hlen; lia|]. simpl.
    replace (pre ++ k :: K' ++ [x]) with ((pre ++ [k]) ++ (K' ++ [x]))
      by (by rewrite <- (assoc_L (++))).
    apply last_n_app_exact. rewrite length_app. simpl in *. lia.
  - destruct Hcases as [[-> Hlt]|Hlen]; [|lia].
    apply last_n_short. rewrite length_app. simpl. lia.
Qed.

(** X24: the keyboard buffer is bounded and keeps the most recent events:
    on a driver built with buffer size [n], after any sequence of key
    events the buffer holds the entries of the last [n] of them, in order
    of arrival, and one line has been printed for each event, dropped or
    not. *)
Theorem X24_keyboard_buffer_keeps_the_latest (name : string) (buffer_size : Z)
    (self0 : KeyboardDevice.t) (events : list (KeyboardEvent * Q))
    (out : list Line) :
  __init__ name buffer_size = Return self0 →
  let '(self, out') := interrupts events (self0, out) in
  Py.items (buffer self) =
    last_n (Z.to_nat buffer_size)
           (map (fun ev => entry_of ev.1 ev.2) events) ∧
  Z.of_nat (length (Py.items (buffer self))) ≤ buffer_size ∧
  Py.maxlen (buffer self) = buffer_size ∧
  out' = out ++ map (fun ev => INTERRUPT_key (Py.upper (event_event_type ev.1))
                                             (event_name ev.1)) events.
Proof.
  unfold __init__. case_decide as Hneg; [done|]. intros [= <-].
  assert (∀ evs (self : KeyboardDevice.t) (o : list Line) seen,
            Py.maxlen (buffer self) = buffer_size →
            Py.items (buffer self) = last_n (Z.to_nat buffer_size) seen →
            let '(self', o') := interrupts evs (self, o) in
            Py.items (buffer self') =
              last_n (Z.to_nat buffer_size)
                     (seen ++ map (fun ev => entry_of ev.1 ev.2) evs) ∧
            Py.maxlen (buffer self') = buffer_size ∧
            o' = o ++ map (fun ev => INTERRUPT_key (Py.upper (event_event_type ev.1))
                                                   (event_name ev.1)) evs) as Hgen.
  { induction evs as [|[ev now] evs IH]; intros self o seen Hmax Hitems.
    - simpl. by rewrite !app_nil_r.
    - cbn [interrupts foldl]. unfold _keyboard_interrupt at 2. cbn [fst snd].
      set (self1 := mk _ _ _ _). set (o1 := o ++ _).
      fold (interrupts evs (self1, o1)).
      specialize (IH self1 o1 (seen ++ [entry_of ev now])).
      destruct (interrupts evs (self1, o1)) as [self' o'].
      destruct IH as (Hi & Hm & Ho).
      + unfold self1. cbn [buffer]. unfold Py.deque_append.
        repeat case_decide; done.
      + unfold self1. cbn [buffer]. rewrite <- deque_append_last_n.
        rewrite Z2Nat.id by lia. f_equal. f_equal.
        destruct (buffer self) as [m its]. simpl in *. by subst.
      + split; [|split; [done|]].
        * rewrite Hi. by rewrite <- (assoc_L (++)).
        * rewrite Ho. unfold o1. by rewrite <- (assoc_L (++)). }
  specialize (Hgen events (mk name false (Py.Deque buffer_size []) false) out []
                eq_refl eq_refl).
  destruct (interrupts events _) as [self out'].
  destruct Hgen as (Hi & Hm & Ho). rewrite app_nil_l in Hi.
  split; [done|]. split; [|done]. rewrite Hi, last_n_length. lia.
Qed.

Lemma X24_keyboard_buffer_keeps_the_latest_witness :
  let a := mkKeyboardEvent "a" "down" in
  let b := mkKeyboardEvent "b" "up" in
  let events := [(a, inject_Z 1); (b, inject_Z 2); (a, inject_Z 3)] in
  let '(self, out') := interrupts events (mk "Keyboard" false (Py.Deque 2 []) false, []) in
  Py.items (buffer self) =
    last_n (Z.to_nat 2) (map (fun ev => entry_of ev.1 ev.2) events) ∧
  Z.of_nat (length (Py.items (buffer self))) ≤ 2 ∧
  Py.maxlen (buffer self) = 2 ∧
  out' = [] ++ map (fun ev => INTERRUPT_key (Py.upper (event_event_type ev.1))
                                            (event_name ev.1)) events.
Proof.
  exact (X24_keyboard_buffer_keeps_the_latest "Keyboard" 2 _
           [(mkKeyboardEvent "a" "down", inject_Z 1);
            (mkKeyboardEvent "b" "up", inject_Z 2);
            (mkKeyboardEvent "a" "down", inject_Z 3)] [] eq_refl).
Defined.

Lemma drain_spec entries out :
  drain entries out = ([], out ++ map read_line entries).
Proof.
  revert out. induction entries as [|e es IH]; intros out; simpl.
  - by rewrite app_nil_r.
  - rewrite IH. by rewrite <- (assoc_L (++)).
Qed.

(** X25: [read_buffer] empties the buffer and prints one line for each
    entry it held, oldest first; a second call right after it prints
    nothing. *)
Theorem X25_read_buffer_drains (self : KeyboardDevice.t) (out : list Line) :
  let '(self1, out1) := read_buffer self out in
  Py.items (buffer self1) = [] ∧
  Py.maxlen (buffer self1) = Py.maxlen (buffer self) ∧
  out1 = out ++ map read_line (Py.items (buffer self)) ∧
  read_buffer self1 out1 = (self1, out1).
Proof.
  unfold read_buffer. rewrite drain_spec. cbn [buffer Py.items Py.maxlen drain].
  done.
Qed.

End KeyboardDevice_more.
